(** * Change detection for monitored worksheets (check_sheet_changes.py)

    A shallow embedding of the script: Python strings are lists of Unicode
    code points, dictionaries are finite maps, and the effects of the script
    (printing, the state file, the spreadsheet service, the webhook, the
    clock, [sys.exit] and exceptions) are threaded through a small
    state-and-exception monad.  Everything outside the repository (gspread,
    requests, the file system, the clock, the credential library) is an
    oracle of the [world] record. *)

From Stdlib Require Import ZArith Lia List String Ascii DecimalString.
From stdpp Require Import base decidable option list finite gmap.

Local Open Scope Z_scope.
Set Warnings "-register-all".
Set Default Proof Using "Type".

(** ** Python strings, bytes and integers *)

(** A Python [str]: the sequence of its code points. *)
Abbreviation pystr := (list Z).

(** The code points of an ASCII literal. *)
Fixpoint py (s : string) : pystr :=
  match s with
  | EmptyString => []
  | String a r => Z.of_N (N_of_ascii a) :: py r
  end.

(** [str(n)] for an integer. *)
Definition str_int (n : Z) : pystr := py (NilZero.string_of_int (Z.to_int n)).

(** [s.zfill(n)] for the digits of a non-negative number ([%02d], [%04d]). *)
Definition zfill (n : nat) (s : pystr) : pystr :=
  replicate (n - length s)%nat 48 ++ s.

(** A valid code point, and the ones UTF-8 refuses to encode. *)
Definition is_codepoint (c : Z) : Prop := 0 <= c < 0x110000.
Definition is_surrogate (c : Z) : bool := (0xD800 <=? c) && (c <=? 0xDFFF).

(** *** Lower-case hexadecimal *)

Definition hex_digit (d : Z) : Z := if d <? 10 then 48 + d else 87 + d.

(** [n] hexadecimal digits of [x], most significant first: the [%02x],
    [%04x] and [%08x] of a number that fits. *)
Fixpoint hex_fixed (n : nat) (x : Z) : pystr :=
  match n with
  | O => []
  | S n' => hex_fixed n' (x / 16) ++ [hex_digit (x mod 16)]
  end.

(** *** [repr] of a string and [str] of a list *)

Definition QUOTE : Z := 39.
Definition DQUOTE : Z := 34.
Definition BACKSLASH : Z := 92.

Definition has_char (c : Z) (s : pystr) : bool := existsb (Z.eqb c) s.

(** The quote [repr] chooses: double quotes only when the string holds a
    single quote and no double quote. *)
Definition repr_quote (s : pystr) : Z :=
  if has_char QUOTE s && negb (has_char DQUOTE s) then DQUOTE else QUOTE.

(** One character of [repr(s)], for the chosen quote.  [printable] is
    [str.isprintable] on single characters, a table of the interpreter's
    Unicode database. *)
Definition repr_char (printable : Z -> bool) (quote c : Z) : pystr :=
  if (c =? quote) || (c =? BACKSLASH) then [BACKSLASH; c]
  else if c =? 9 then py "\t"
  else if c =? 10 then py "\n"
  else if c =? 13 then py "\r"
  else if (c <? 32) || (c =? 0x7f) then py "\x" ++ hex_fixed 2 c
  else if c <? 0x7f then [c]
  else if printable c then [c]
  else if c <=? 0xff then py "\x" ++ hex_fixed 2 c
  else if c <=? 0xffff then py "\u" ++ hex_fixed 4 c
  else py "\U" ++ hex_fixed 8 c.

Definition repr_body (printable : Z -> bool) (quote : Z) (s : pystr) : pystr :=
  concat (map (repr_char printable quote) s).

Definition repr_str (printable : Z -> bool) (s : pystr) : pystr :=
  let q := repr_quote s in q :: repr_body printable q s ++ [q].

(** What follows the first item of a list display: [", " item] for every
    further item, then the closing bracket. *)
Fixpoint list_tail {A} (f : A -> pystr) (l : list A) : pystr :=
  match l with
  | [] => py "]"
  | x :: r => py ", " ++ f x ++ list_tail f r
  end.

(** [str(l)] for a list whose items display as [f]. *)
Definition str_list {A} (f : A -> pystr) (l : list A) : pystr :=
  match l with
  | [] => py "[]"
  | x :: r => py "[" ++ f x ++ list_tail f r
  end.

(** [str(all_values)] for the rows of cell texts that [get_all_values]
    returns. *)
Definition str_values (printable : Z -> bool) (all_values : list (list pystr)) : pystr :=
  str_list (str_list (repr_str printable)) all_values.

(** *** [s.encode('utf-8')] *)

Definition utf8_char (c : Z) : option (list Z) :=
  if c <? 0x80 then Some [c]
  else if c <? 0x800 then Some [Z.lor 0xC0 (Z.shiftr c 6); Z.lor 0x80 (Z.land c 0x3F)]
  else if c <? 0x10000 then
    if is_surrogate c then None
    else Some [Z.lor 0xE0 (Z.shiftr c 12);
               Z.lor 0x80 (Z.land (Z.shiftr c 6) 0x3F);
               Z.lor 0x80 (Z.land c 0x3F)]
  else Some [Z.lor 0xF0 (Z.shiftr c 18);
             Z.lor 0x80 (Z.land (Z.shiftr c 12) 0x3F);
             Z.lor 0x80 (Z.land (Z.shiftr c 6) 0x3F);
             Z.lor 0x80 (Z.land c 0x3F)].

(** [None] stands for [UnicodeEncodeError] (a lone surrogate). *)
Fixpoint encode_utf8 (s : pystr) : option (list Z) :=
  match s with
  | [] => Some []
  | c :: r =>
      match utf8_char c, encode_utf8 r with
      | Some b, Some br => Some (b ++ br)
      | _, _ => None
      end
  end.

(** ** MD5 ([hashlib.md5], after RFC 1321) *)

Module MD5.

Definition add32 (x y : Z) : Z := (x + y) mod 2 ^ 32.
Definition not32 (x : Z) : Z := Z.lxor x 0xFFFFFFFF.
Definition rotl32 (x : Z) (c : Z) : Z :=
  Z.lor (Z.shiftl x c mod 2 ^ 32) (Z.shiftr x (32 - c)).

(** Per-round shift amounts. *)
Definition S_table : list Z :=
  [7; 12; 17; 22; 7; 12; 17; 22; 7; 12; 17; 22; 7; 12; 17; 22;
   5; 9; 14; 20; 5; 9; 14; 20; 5; 9; 14; 20; 5; 9; 14; 20;
   4; 11; 16; 23; 4; 11; 16; 23; 4; 11; 16; 23; 4; 11; 16; 23;
   6; 10; 15; 21; 6; 10; 15; 21; 6; 10; 15; 21; 6; 10; 15; 21].

(** [floor(2^32 * abs(sin(i + 1)))] for [i] in 0..63. *)
Definition K_table : list Z :=
  [3614090360; 3905402710; 606105819; 3250441966; 4118548399; 1200080426;
   2821735955; 4249261313; 1770035416; 2336552879; 4294925233; 2304563134;
   1804603682; 4254626195; 2792965006; 1236535329; 4129170786; 3225465664;
   643717713; 3921069994; 3593408605; 38016083; 3634488961; 3889429448;
   568446438; 3275163606; 4107603335; 1163531501; 2850285829; 4243563512;
   1735328473; 2368359562; 4294588738; 2272392833; 1839030562; 4259657740;
   2763975236; 1272893353; 4139469664; 3200236656; 681279174; 3936430074;
   3572445317; 76029189; 3654602809; 3873151461; 530742520; 3299628645;
   4096336452; 1126891415; 2878612391; 4237533241; 1700485571; 2399980690;
   4293915773; 2240044497; 1873313359; 4264355552; 2734768916; 1309151649;
   4149444226; 3174756917; 718787259; 3951481745].

(** The four chaining words A, B, C, D. *)
Record words := Words { wA : Z; wB : Z; wC : Z; wD : Z }.

Definition init : words :=
  Words 0x67452301 0xefcdab89 0x98badcfe 0x10325476.

(** [n] bytes of [x], least significant first. *)
Fixpoint le_bytes (n : nat) (x : Z) : list Z :=
  match n with
  | O => []
  | S n' => x mod 256 :: le_bytes n' (x / 256)
  end.

(** The message followed by 0x80, zeros up to 56 modulo 64, and the bit
    length as 8 little-endian bytes. *)
Definition pad (msg : list Z) : list Z :=
  let len := Z.of_nat (length msg) in
  msg ++ [0x80] ++ replicate (Z.to_nat ((55 - len) mod 64)) 0
      ++ le_bytes 8 ((8 * len) mod 2 ^ 64).

(** Word [g] of a 64-byte block, little-endian. *)
Definition word_at (block : list Z) (g : Z) : Z :=
  let b k := nth (Z.to_nat (4 * g + k)) block 0 in
  b 0 + 256 * b 1 + 65536 * b 2 + 16777216 * b 3.

Definition step (block : list Z) (w : words) (i : Z) : words :=
  let '(Words a b c d) := w in
  let '(f, g) :=
    if i <? 16 then (Z.lor (Z.land b c) (Z.land (not32 b) d), i)
    else if i <? 32 then (Z.lor (Z.land d b) (Z.land (not32 d) c), (5 * i + 1) mod 16)
    else if i <? 48 then (Z.lxor (Z.lxor b c) d, (3 * i + 5) mod 16)
    else (Z.lxor c (Z.lor b (not32 d)), (7 * i) mod 16) in
  let f' := add32 (add32 (add32 f a) (nth (Z.to_nat i) K_table 0)) (word_at block g) in
  Words d (add32 b (rotl32 f' (nth (Z.to_nat i) S_table 0))) b c.

Definition compress (w : words) (block : list Z) : words :=
  let r := fold_left (step block) (map Z.of_nat (seq 0 64)) w in
  Words (add32 (wA w) (wA r)) (add32 (wB w) (wB r))
        (add32 (wC w) (wC r)) (add32 (wD w) (wD r)).

(** The first [n] 64-byte blocks of [bytes]. *)
Fixpoint blocks (n : nat) (bytes : list Z) (w : words) : words :=
  match n with
  | O => w
  | S n' => blocks n' (drop 64 bytes) (compress w (take 64 bytes))
  end.

Definition state (msg : list Z) : words :=
  let p := pad msg in blocks (length p / 64)%nat p init.

Definition digest_of (w : words) : list Z :=
  le_bytes 4 (wA w) ++ le_bytes 4 (wB w) ++ le_bytes 4 (wC w) ++ le_bytes 4 (wD w).

(** [hashlib.md5(msg).digest()]: 16 bytes. *)
Definition digest (msg : list Z) : list Z := digest_of (state msg).

Definition hex_of (bytes : list Z) : pystr :=
  concat (map (hex_fixed 2) bytes).

(** [hashlib.md5(msg).hexdigest()]: 32 lower-case hexadecimal digits. *)
Definition hexdigest (msg : list Z) : pystr := hex_of (digest msg).

End MD5.

(** ** Dates ([datetime]) *)

Record datetime := DateTime {
  year : Z; month : Z; day : Z;
  hour : Z; minute : Z; second : Z; microsecond : Z
}.

Definition is_leap (y : Z) : bool :=
  (y mod 4 =? 0) && (negb (y mod 100 =? 0) || (y mod 400 =? 0)).

Definition days_in_month (y m : Z) : Z :=
  if m =? 2 then (if is_leap y then 29 else 28)
  else if (m =? 4) || (m =? 6) || (m =? 9) || (m =? 11) then 30
  else 31.

(** [d + timedelta(hours=1)]; [None] is the [OverflowError] past year 9999. *)
Definition add_hour (d : datetime) : option datetime :=
  let '(DateTime y mo dd h mi s us) := d in
  if h + 1 <? 24 then Some (DateTime y mo dd (h + 1) mi s us)
  else if dd + 1 <=? days_in_month y mo then Some (DateTime y mo (dd + 1) 0 mi s us)
  else if mo + 1 <=? 12 then Some (DateTime y (mo + 1) 1 0 mi s us)
  else if y + 1 <=? 9999 then Some (DateTime (y + 1) 1 1 0 mi s us)
  else None.

Definition two_digits (n : Z) : pystr := zfill 2 (str_int n).

Definition clock_text (d : datetime) : pystr :=
  two_digits (hour d) ++ py ":" ++ two_digits (minute d) ++ py ":" ++ two_digits (second d).

(** [d.isoformat()]: YYYY-MM-DDTHH:MM:SS, with .ffffff when the microsecond
    is not zero. *)
Definition isoformat (d : datetime) : pystr :=
  zfill 4 (str_int (year d)) ++ py "-" ++ two_digits (month d) ++ py "-"
    ++ two_digits (day d) ++ py "T" ++ clock_text d
    ++ (if microsecond d =? 0 then [] else py "." ++ zfill 6 (str_int (microsecond d))).

(** [d.strftime('%Y-%m-%d %H:%M:%S WAT')] (the C library does not pad %Y). *)
Definition strftime_wat (d : datetime) : pystr :=
  str_int (year d) ++ py "-" ++ two_digits (month d) ++ py "-"
    ++ two_digits (day d) ++ py " " ++ clock_text d ++ py " WAT".

(** ** [split] and [strip] *)

(** [str.isspace] on one character. *)
Definition isspace (c : Z) : bool :=
  ((9 <=? c) && (c <=? 13)) || ((28 <=? c) && (c <=? 32))
  || (c =? 133) || (c =? 160) || (c =? 5760)
  || ((8192 <=? c) && (c <=? 8202))
  || (c =? 8232) || (c =? 8233) || (c =? 8239) || (c =? 8287) || (c =? 12288).

Fixpoint lstrip (s : pystr) : pystr :=
  match s with
  | c :: r => if isspace c then lstrip r else s
  | [] => []
  end.

Definition rstrip (s : pystr) : pystr := rev (lstrip (rev s)).

(** [s.strip()] *)
Definition strip (s : pystr) : pystr := rstrip (lstrip s).

(** [s.split(sep)] for a one-character separator. *)
Fixpoint split (sep : Z) (s : pystr) : list pystr :=
  match s with
  | [] => [[]]
  | c :: r =>
      if c =? sep then [] :: split sep r
      else match split sep r with
           | h :: t => (c :: h) :: t
           | [] => [[c]]
           end
  end.

(** [sep.join(l)] *)
Fixpoint join (sep : pystr) (l : list pystr) : pystr :=
  match l with
  | [] => []
  | [x] => x
  | x :: r => x ++ sep ++ join sep r
  end.

(** ** JSON values and Python objects *)

(** What [json.load] can return, and what the script puts in dictionaries.
    A dictionary is a finite map: lookups and equality ignore the order of
    insertion, as Python's do. *)
Inductive json :=
| JNull
| JBool (b : bool)
| JInt (n : Z)
| JFloat (mantissa exponent : Z)
| JStr (s : pystr)
| JList (l : list json)
| JDict (m : gmap pystr json).

(** A dictionary display. *)
Definition dict (l : list (pystr * json)) : json := JDict (list_to_map l).

(** [type(v).__name__] *)
Definition type_name (v : json) : pystr :=
  match v with
  | JNull => py "NoneType"
  | JBool _ => py "bool"
  | JInt _ => py "int"
  | JFloat _ _ => py "float"
  | JStr _ => py "str"
  | JList _ => py "list"
  | JDict _ => py "dict"
  end.

(** [v != s] for a string [s]: a string differs from every value that is
    not the same string. *)
Definition ne_str (v : json) (s : pystr) : bool :=
  match v with
  | JStr t => negb (bool_decide (t = s))
  | _ => true
  end.

(** The exceptions the script tells apart; each carries its message. *)
Inductive exn :=
| Exception (msg : pystr)
| JSONDecodeError (msg : pystr)
| WorksheetNotFound (msg : pystr).

(** [str(e)] *)
Definition exn_str (e : exn) : pystr :=
  match e with
  | Exception m | JSONDecodeError m | WorksheetNotFound m => m
  end.

Record credentials := Credentials {
  service_account_info : json;
  scopes : list pystr
}.

(** The state file on disk: absent, present but failing to open or parse
    (with the exception that raises), or holding a JSON value.  The file is
    kept as the value it denotes: what [json.dump] writes, [json.load]
    reads back. *)
Inductive file :=
| Absent
| Unreadable (e : exn)
| Content (data : json).

(** ** The world outside the script, and the script's effects *)

(** Every external service as an oracle.  Retrievals and clock readings are
    numbered, so that a worksheet may change between two retrievals and the
    clock advances between two readings. *)
Record world := World {
  (** [os.getenv] *)
  environ : pystr -> option pystr;
  (** [str.isprintable] on one character *)
  isprintable : Z -> bool;
  (** the [UnicodeEncodeError] of a string UTF-8 cannot encode *)
  encode_error : pystr -> exn;
  (** [json.loads] *)
  json_loads : pystr -> exn + json;
  (** [Credentials.from_service_account_info(info, scopes=...)] *)
  from_service_account_info : json -> list pystr -> exn + credentials;
  (** [gspread.authorize(c).open_by_key(id).worksheet(name).get_all_values()],
      at the n-th retrieval *)
  get_all_values : nat -> credentials -> pystr -> pystr -> exn + list (list pystr);
  (** [datetime.utcnow()], at the n-th reading *)
  utcnow : nat -> datetime;
  (** [requests.post(url, json=card, timeout=10)]: the status code of the
      response, or the exception of the transport *)
  requests_post : pystr -> json -> exn + Z;
  (** opening the state file for writing and dumping a value: [None] when
      it succeeds, else the exception and what is left on disk *)
  json_dump : json -> option (exn * file)
}.

Record state := State {
  (** the lines printed so far *)
  stdout : list pystr;
  (** the file last_source_hash.json *)
  hash_file : file;
  (** how many worksheet retrievals were made *)
  retrievals : nat;
  (** how many times the clock was read *)
  clock_reads : nat;
  (** the webhook requests made: URL and JSON body *)
  posted : list (pystr * json)
}.

(** How a call ends: with a value, with an exception, or in [sys.exit]
    ([SystemExit] is not an [Exception]: no handler of the script sees it). *)
Inductive outcome (A : Type) :=
| Normal (a : A)
| Raise (e : exn)
| SysExit (code : Z).
Arguments Normal {A} a.
Arguments Raise {A} e.
Arguments SysExit {A} code.

Definition M (A : Type) : Type := state -> outcome A * state.

#[export] Instance M_ret : MRet M := fun A a st => (Normal a, st).
#[export] Instance M_bind : MBind M := fun A B f m st =>
  match m st with
  | (Normal a, st') => f a st'
  | (Raise e, st') => (Raise e, st')
  | (SysExit c, st') => (SysExit c, st')
  end.

Definition raise {A} (e : exn) : M A := fun st => (Raise e, st).
Definition sys_exit {A} (code : Z) : M A := fun st => (SysExit code, st).

(** [try: body except Exception as e: handler(e)] *)
Definition try_except {A} (body : M A) (handler : exn -> M A) : M A := fun st =>
  match body st with
  | (Raise e, st') => handler e st'
  | r => r
  end.

(** A library call that returns or raises. *)
Definition call {A} (r : exn + A) : M A :=
  match r with
  | inl e => raise e
  | inr a => mret a
  end.

Definition print (line : pystr) : M unit := fun st =>
  (Normal tt, State (stdout st ++ [line]) (hash_file st) (retrievals st)
                    (clock_reads st) (posted st)).

(** [not v] for the result of [os.getenv]: unset or empty. *)
Definition unset (v : option pystr) : bool :=
  match v with
  | None | Some [] => true
  | Some (_ :: _) => false
  end.

Definition datetime_utcnow (w : world) : M datetime := fun st =>
  (Normal (utcnow w (clock_reads st)),
   State (stdout st) (hash_file st) (retrievals st) (S (clock_reads st)) (posted st)).

Definition worksheet_get_all_values (w : world) (c : credentials)
    (spreadsheet_id worksheet_name : pystr) : M (list (list pystr)) := fun st =>
  let st' := State (stdout st) (hash_file st) (S (retrievals st))
                   (clock_reads st) (posted st) in
  match get_all_values w (retrievals st) c spreadsheet_id worksheet_name with
  | inl e => (Raise e, st')
  | inr values => (Normal values, st')
  end.

Definition post (w : world) (url : pystr) (body : json) : M Z := fun st =>
  let st' := State (stdout st) (hash_file st) (retrievals st) (clock_reads st)
                   (posted st ++ [(url, body)]) in
  match requests_post w url body with
  | inl e => (Raise e, st')
  | inr status_code => (Normal status_code, st')
  end.

(** [os.path.exists(hash_file)] *)
Definition path_exists : M bool := fun st =>
  (Normal (match hash_file st with Absent => false | _ => true end), st).

(** [with open(hash_file, 'r') as f: json.load(f)] *)
Definition read_json : M json := fun st =>
  match hash_file st with
  | Content data => (Normal data, st)
  | Unreadable e => (Raise e, st)
  | Absent => (Raise (Exception (py "[Errno 2] No such file or directory: 'last_source_hash.json'")), st)
  end.

(** [with open(hash_file, 'w') as f: json.dump(data, f, indent=2)] *)
Definition write_json (w : world) (data : json) : M unit := fun st =>
  match json_dump w data with
  | None => (Normal tt, State (stdout st) (Content data) (retrievals st)
                              (clock_reads st) (posted st))
  | Some (e, remains) => (Raise e, State (stdout st) remains (retrievals st)
                                      (clock_reads st) (posted st))
  end.

(** [d.get(key)]: only a dictionary has the method. *)
Definition dict_get (d : json) (key : pystr) : M json :=
  match d with
  | JDict m => mret (default JNull (m !! key))
  | _ => raise (Exception (py "'" ++ type_name d ++ py "' object has no attribute 'get'"))
  end.

(** ** The script *)

Definition SCOPES : list pystr :=
  [py "https://www.googleapis.com/auth/spreadsheets.readonly";
   py "https://www.googleapis.com/auth/drive.metadata.readonly"].

Definition get_credentials (w : world) : M credentials :=
  let service_account_json := environ w (py "GOOGLE_SERVICE_ACCOUNT") in
  if unset service_account_json then
    print (py "ERROR: GOOGLE_SERVICE_ACCOUNT environment variable not set");;
    sys_exit 1
  else
    try_except
      (credentials_dict ← call (json_loads w (default [] service_account_json));
       credentials ← call (from_service_account_info w credentials_dict SCOPES);
       print (py "Authentication successful");;
       mret credentials)
      (fun e =>
         match e with
         | JSONDecodeError _ =>
             print (py "ERROR: Invalid service account JSON format");;
             sys_exit 1
         | _ =>
             print (py "ERROR: Authentication failed - " ++ exn_str e);;
             sys_exit 1
         end).

(** [content_str.encode('utf-8')] *)
Definition encode (w : world) (s : pystr) : M (list Z) :=
  match encode_utf8 s with
  | Some bytes => mret bytes
  | None => raise (encode_error w s)
  end.

Definition get_worksheet_hash (w : world) (spreadsheet_id worksheet_name : pystr)
    (credentials : credentials) : M pystr :=
  try_except
    (all_values ← worksheet_get_all_values w credentials spreadsheet_id worksheet_name;
     let content_str := str_values (isprintable w) all_values in
     bytes ← encode w content_str;
     let content_hash := MD5.hexdigest bytes in
     mret content_hash)
    (fun e =>
       match e with
       | WorksheetNotFound _ =>
           print (py "ERROR: Worksheet not found");;
           sys_exit 1
       | _ =>
           print (py "ERROR: Failed to fetch worksheet data - " ++ exn_str e);;
           sys_exit 1
       end).

Definition load_last_hashes : M json :=
  try_except
    (found ← path_exists;
     if found : bool then
       data ← read_json;
       mret data
     else mret (JDict ∅))
    (fun e =>
       print (py "WARNING: Could not load previous hashes - " ++ exn_str e);;
       mret (JDict ∅)).

Definition save_hashes (w : world) (hashes_data : json) : M unit :=
  try_except
    (write_json w hashes_data;;
     print (py "Hash file updated successfully"))
    (fun e =>
       print (py "ERROR: Failed to save hashes - " ++ exn_str e);;
       sys_exit 1).

Definition NEWLINE : Z := 10.
Definition BULLET : Z := 0x2022.
Definition BELL : Z := 0x1F514.

(** The card of [send_google_chat_card], piece by piece. *)
Definition key_value (top_label content icon : pystr) : json :=
  dict [(py "keyValue", dict [(py "topLabel", JStr top_label);
                              (py "content", JStr content);
                              (py "icon", JStr icon)])].

Definition card_header : json :=
  dict [(py "title", JStr (BELL :: py " Egg Movement Tracker - Changes Detected"));
        (py "subtitle", JStr (py "Source data has been updated"));
        (py "imageUrl",
         JStr (py "https://www.gstatic.com/images/branding/product/1x/sheets_48dp.png"))].

Definition view_button (spreadsheet_id : pystr) : json :=
  dict [(py "textButton", dict
    [(py "text", JStr (py "VIEW SHEET"));
     (py "onClick", dict [(py "openLink", dict
        [(py "url", JStr (py "https://docs.google.com/spreadsheets/d/"
                            ++ spreadsheet_id))])])])].

Definition card (timestamp : pystr) (changed_worksheets : list pystr)
    (spreadsheet_id : pystr) : json :=
  let worksheets_text :=
    join [NEWLINE] (map (fun ws_name => BULLET :: py " " ++ ws_name) changed_worksheets) in
  dict [(py "cards", JList [dict
    [(py "header", card_header);
     (py "sections", JList
        [dict [(py "widgets", JList
           [key_value (py "Changed Worksheets")
                      (str_int (Z.of_nat (length changed_worksheets))
                         ++ py " worksheet(s) updated")
                      (py "DESCRIPTION");
            dict [(py "textParagraph", dict [(py "text", JStr worksheets_text)])]])];
         dict [(py "widgets", JList
           [key_value (py "Detection Time") timestamp (py "CLOCK");
            dict [(py "buttons", JList [view_button spreadsheet_id])]])]])]])].

Definition send_google_chat_card (w : world) (webhook_url : pystr)
    (changed_worksheets : list pystr) (spreadsheet_id : pystr) : M bool :=
  try_except
    (now ← datetime_utcnow w;
     wat_time ← match add_hour now with
                | Some t => mret t
                | None => raise (Exception (py "date value out of range"))
                end;
     let timestamp := strftime_wat wat_time in
     response ← post w webhook_url (card timestamp changed_worksheets spreadsheet_id);
     if response =? 200 then
       print (py "Alert sent successfully");;
       mret true
     else
       print (py "WARNING: Alert delivery failed with status " ++ str_int response);;
       mret false)
    (fun e =>
       print (py "ERROR: Failed to send alert - " ++ exn_str e);;
       mret false).

(** The loop of [main] over the worksheet names: it carries the dictionary
    [current_hashes] and the list [changed_worksheets]. *)
Fixpoint check_worksheets (w : world) (spreadsheet_id : pystr) (credentials : credentials)
    (last_hashes : json) (worksheet_names : list pystr)
    (current_hashes : gmap pystr json) (changed_worksheets : list pystr)
    : M (gmap pystr json * list pystr) :=
  match worksheet_names with
  | [] => mret (current_hashes, changed_worksheets)
  | ws_name :: rest =>
      current_hash ← get_worksheet_hash w spreadsheet_id ws_name credentials;
      let current_hashes := <[ws_name := JStr current_hash]> current_hashes in
      last_hash ← dict_get last_hashes ws_name;
      let changed_worksheets :=
        if ne_str last_hash current_hash then changed_worksheets ++ [ws_name]
        else changed_worksheets in
      check_worksheets w spreadsheet_id credentials last_hashes rest
                       current_hashes changed_worksheets
  end.

Definition main (w : world) : M bool :=
  try_except
    (print (py "Starting change detection...");;
     let spreadsheet_id := environ w (py "SPREADSHEET_ID") in
     let source_worksheets := environ w (py "SOURCE_WORKSHEETS") in
     let webhook_url := environ w (py "GOOGLE_CHAT_WEBHOOK") in
     if unset spreadsheet_id then
       print (py "ERROR: SPREADSHEET_ID not set");; sys_exit 1
     else if unset source_worksheets then
       print (py "ERROR: SOURCE_WORKSHEETS not set");; sys_exit 1
     else if unset webhook_url then
       print (py "ERROR: GOOGLE_CHAT_WEBHOOK not set");; sys_exit 1
     else
       let spreadsheet_id := default [] spreadsheet_id in
       let source_worksheets := default [] source_worksheets in
       let webhook_url := default [] webhook_url in
       let worksheet_names := map strip (split 44 source_worksheets) in
       print (py "Monitoring " ++ str_int (Z.of_nat (length worksheet_names))
                ++ py " worksheet(s)");;
       credentials ← get_credentials w;
       last_hashes ← load_last_hashes;
       '(current_hashes, changed_worksheets) ←
         check_worksheets w spreadsheet_id credentials last_hashes worksheet_names ∅ [];
       now ← datetime_utcnow w;
       let current_hashes := <[py "last_checked" := JStr (isoformat now)]> current_hashes in
       match changed_worksheets with
       | _ :: _ =>
           print (py "Changes detected in "
                    ++ str_int (Z.of_nat (length changed_worksheets))
                    ++ py " worksheet(s)");;
           send_google_chat_card w webhook_url changed_worksheets spreadsheet_id;;
           save_hashes w (JDict current_hashes);;
           mret true
       | [] =>
           print (py "No changes detected");;
           save_hashes w (JDict current_hashes);;
           mret false
       end)
    (fun e =>
       print (py "ERROR: Unexpected failure - " ++ exn_str e);;
       sys_exit 1).

(** ** What a run computes, as pure functions *)

(** Lines 55-56 of [get_worksheet_hash]: the digest of the cell texts. *)
Definition content_hash (w : world) (all_values : list (list pystr)) : option pystr :=
  MD5.hexdigest <$> encode_utf8 (str_values (isprintable w) all_values).

(** The digest [get_worksheet_hash] returns at retrieval [k], if it returns. *)
Definition hash_at (w : world) (c : credentials) (spreadsheet_id : pystr)
    (k : nat) (worksheet_name : pystr) : option pystr :=
  match get_all_values w k c spreadsheet_id worksheet_name with
  | inr all_values => content_hash w all_values
  | inl _ => None
  end.

(** The digests of the worksheets [names], retrieved in order from
    retrieval [k] on. *)
Fixpoint digests (w : world) (c : credentials) (spreadsheet_id : pystr)
    (k : nat) (names : list pystr) : option (list pystr) :=
  match names with
  | [] => Some []
  | n :: rest =>
      match hash_at w c spreadsheet_id k n, digests w c spreadsheet_id (S k) rest with
      | Some h, Some hs => Some (h :: hs)
      | _, _ => None
      end
  end.

(** [last_hashes.get(name)] where [last_hashes] is a dictionary. *)
Definition prior_entry (last_hashes : json) (name : pystr) : json :=
  match last_hashes with
  | JDict m => default JNull (m !! name)
  | _ => JNull
  end.

(** The names appended to [changed_worksheets], given each occurrence's digest. *)
Fixpoint changed_in (last_hashes : json) (names hs : list pystr) : list pystr :=
  match names, hs with
  | n :: names', h :: hs' =>
      (if ne_str (prior_entry last_hashes n) h then [n] else [])
        ++ changed_in last_hashes names' hs'
  | _, _ => []
  end.

(** The entries assigned to [current_hashes], in order. *)
Fixpoint recorded (names hs : list pystr) (current_hashes : gmap pystr json)
    : gmap pystr json :=
  match names, hs with
  | n :: names', h :: hs' => recorded names' hs' (<[n := JStr h]> current_hashes)
  | _, _ => current_hashes
  end.

(** State updates. *)
Definition printed (lines : list pystr) (st : state) : state :=
  State (stdout st ++ lines) (hash_file st) (retrievals st) (clock_reads st) (posted st).
Definition retrieved (n : nat) (st : state) : state :=
  State (stdout st) (hash_file st) (n + retrievals st) (clock_reads st) (posted st).

Definition is_dict (v : json) : Prop :=
  match v with JDict _ => True | _ => False end.

(** The credentials [get_credentials] returns, when it returns. *)
Definition run_credentials (w : world) : option credentials :=
  match json_loads w (default [] (environ w (py "GOOGLE_SERVICE_ACCOUNT"))) with
  | inr info =>
      match from_service_account_info w info SCOPES with
      | inr c => Some c
      | inl _ => None
      end
  | inl _ => None
  end.

(** What [load_last_hashes] returns for each condition of the file. *)
Definition loaded (f : file) : json :=
  match f with
  | Content data => data
  | Absent | Unreadable _ => JDict ∅
  end.

Definition load_warnings (f : file) : list pystr :=
  match f with
  | Unreadable e => [py "WARNING: Could not load previous hashes - " ++ exn_str e]
  | Absent | Content _ => []
  end.

Definition with_file (f : file) (st : state) : state :=
  State (stdout st) f (retrievals st) (clock_reads st) (posted st).

(** The request of a notification whose clock reading is [now]: none when
    adding the hour overflows. *)
Definition request (url : pystr) (changed : list pystr) (sid : pystr) (now : datetime)
    : list (pystr * json) :=
  match add_hour now with
  | Some t => [(url, card (strftime_wat t) changed sid)]
  | None => []
  end.

Definition env_spreadsheet_id (w : world) : pystr :=
  default [] (environ w (py "SPREADSHEET_ID")).
Definition env_webhook (w : world) : pystr :=
  default [] (environ w (py "GOOGLE_CHAT_WEBHOOK")).

(** [worksheet_names]: the names of SOURCE_WORKSHEETS, stripped. *)
Definition configured_names (w : world) : list pystr :=
  map strip (split 44 (default [] (environ w (py "SOURCE_WORKSHEETS")))).

(** The digests a run computes from state [st], one for each configured
    name in order, when every one of them can be computed. *)
Definition run_digests (w : world) (st : state) : option (list pystr) :=
  match run_credentials w with
  | Some c => digests w c (env_spreadsheet_id w) (retrievals st) (configured_names w)
  | None => None
  end.

(** [changed_worksheets] at the end of the loop. *)
Definition run_changed (w : world) (st : state) : list pystr :=
  changed_in (loaded (hash_file st)) (configured_names w) (default [] (run_digests w st)).

(** [current_hashes] when it is saved. *)
Definition run_hashes (w : world) (st : state) : gmap pystr json :=
  <[py "last_checked" := JStr (isoformat (utcnow w (clock_reads st)))]>
    (recorded (configured_names w) (default [] (run_digests w st)) ∅).

(** The webhook requests of the run. *)
Definition run_requests (w : world) (st : state) : list (pystr * json) :=
  match run_changed w st with
  | [] => []
  | _ :: _ => request (env_webhook w) (run_changed w st) (env_spreadsheet_id w)
                      (utcnow w (S (clock_reads st)))
  end.

Definition run_clock_reads (w : world) (st : state) : nat :=
  match run_changed w st with
  | [] => S (clock_reads st)
  | _ :: _ => S (S (clock_reads st))
  end.

(** The run gets as far as saving the state: the environment is set, the
    credentials are accepted, the loaded state is a dictionary and every
    worksheet is retrieved and hashed. *)
Definition reaches_save (w : world) (st : state) : Prop :=
  unset (environ w (py "SPREADSHEET_ID")) = false /\
  unset (environ w (py "SOURCE_WORKSHEETS")) = false /\
  unset (environ w (py "GOOGLE_CHAT_WEBHOOK")) = false /\
  unset (environ w (py "GOOGLE_SERVICE_ACCOUNT")) = false /\
  is_Some (run_digests w st) /\
  is_dict (loaded (hash_file st)).

(** How often a name occurs in a list. *)
Definition occurrences (n : pystr) (l : list pystr) : nat :=
  length (List.filter (fun x => bool_decide (x = n)) l).

(** A lower-case hexadecimal digit. *)
Definition is_hex (c : Z) : Prop := 48 <= c <= 57 \/ 97 <= c <= 102.

(** ** Worksheet contents and their serialisation *)

(** The cell in row [r] and column [c] of a grid of cell texts. *)
Definition cell (all_values : list (list pystr)) (r c : nat) : option pystr :=
  all_values !! r ≫= (.!! c).

(** Two grids differ in the text of a cell. *)
Definition differ_in_a_cell (g1 g2 : list (list pystr)) : Prop :=
  exists r c s1 s2, cell g1 r c = Some s1 /\ cell g2 r c = Some s2 /\ s1 <> s2.

(** One of the two quotes of a [repr]. *)
Definition is_quote (q : Z) : Prop := q = QUOTE \/ q = DQUOTE.

(** Every character of every cell is a code point. *)
Definition valid_text (s : pystr) : Prop := Forall is_codepoint s.
Definition valid_values (all_values : list (list pystr)) : Prop :=
  Forall (Forall valid_text) all_values.

(** The bytes [get_worksheet_hash] feeds to MD5. *)
Definition serialise (w : world) (all_values : list (list pystr)) : option (list Z) :=
  encode_utf8 (str_values (isprintable w) all_values).

(** A one-cell grid whose cell is [i] times the letter a. *)
Definition letters (i : nat) : pystr := replicate i 97.

(** The chaining words as one number below 2^128. *)
Definition words_code (ws : MD5.words) : Z :=
  MD5.wA ws + 4294967296 * (MD5.wB ws + 4294967296 * (MD5.wC ws + 4294967296 * MD5.wD ws)).

Definition word_ok (x : Z) : Prop := 0 <= x < 4294967296.
Definition words_ok (ws : MD5.words) : Prop :=
  word_ok (MD5.wA ws) /\ word_ok (MD5.wB ws) /\ word_ok (MD5.wC ws) /\ word_ok (MD5.wD ws).

(** Validity, as a check. *)
Definition is_codepointb (c : Z) : bool := (0 <=? c) && (c <? 0x110000).
Definition valid_valuesb (all_values : list (list pystr)) : bool :=
  forallb (forallb (forallb is_codepointb)) all_values.

(** ** Sample worlds *)

Module Demo.

Definition environment (source_worksheets : pystr) (name : pystr) : option pystr :=
  if bool_decide (name = py "SPREADSHEET_ID") then Some (py "1AbC")
  else if bool_decide (name = py "SOURCE_WORKSHEETS") then Some source_worksheets
  else if bool_decide (name = py "GOOGLE_CHAT_WEBHOOK") then Some (py "https://chat.example/hook")
  else if bool_decide (name = py "GOOGLE_SERVICE_ACCOUNT") then Some (py "{}")
  else None.

(** A world with the given SOURCE_WORKSHEETS, worksheet contents, webhook
    answer and outcome of writing the state file; credentials are accepted
    and the clock advances by a second at each reading. *)
Definition make (source_worksheets : pystr)
    (content : nat -> pystr -> exn + list (list pystr))
    (response : exn + Z) (dump : json -> option (exn * file)) : world :=
  {| environ := environment source_worksheets;
     isprintable := fun c => (0xA1 <=? c) && negb (is_surrogate c);
     encode_error := fun _ => Exception (py "surrogates not allowed");
     json_loads := fun _ => inr (JDict ∅);
     from_service_account_info := fun info scopes => inr (Credentials info scopes);
     get_all_values := fun k _ _ name => content k name;
     utcnow := fun k => DateTime 2024 5 17 9 30 (Z.of_nat k) 0;
     requests_post := fun _ _ => response;
     json_dump := dump |}.

(** Every worksheet holds one row: its own name and a count. *)
Definition rows (k : nat) (name : pystr) : exn + list (list pystr) :=
  inr [[name; py "12"]].

Definition creds : credentials := Credentials (JDict ∅) SCOPES.

(** No state file, nothing printed or requested yet. *)
Definition start : state := State [] Absent 0 0 [].

(** Two worksheets, a webhook that answers 200. *)
Definition two_sheets : world := make (py "Eggs, Shipments") rows (inr 200) (fun _ => None).

(** The same worksheet listed twice. *)
Definition twice : world := make (py "Eggs,Eggs") rows (inr 200) (fun _ => None).

(** A webhook that answers 204. *)
Definition no_content : world := make (py "Eggs") rows (inr 204) (fun _ => None).

(** A webhook that cannot be reached. *)
Definition unreachable : world :=
  make (py "Eggs") rows (inl (Exception (py "Connection refused"))) (fun _ => None).

(** A disk that cannot be written. *)
Definition read_only : world :=
  make (py "Eggs") rows (inr 200)
       (fun _ => Some (Exception (py "[Errno 30] Read-only file system"), Absent)).

(** A worksheet named like the timestamp key. *)
Definition reserved : world := make (py "last_checked") rows (inr 200) (fun _ => None).

(** A worksheet whose count is edited after the first retrieval. *)
Definition edited_rows (k : nat) (name : pystr) : exn + list (list pystr) :=
  inr [[name; if k is O then py "12" else py "13"]].
Definition edited : world := make (py "Eggs") edited_rows (inr 200) (fun _ => None).

End Demo.


(** ** How a run fails *)

(** The line [main] prints for the first required variable that is unset or
    empty, in the order it checks them. *)
Definition config_error (w : world) : option pystr :=
  if unset (environ w (py "SPREADSHEET_ID")) then Some (py "ERROR: SPREADSHEET_ID not set")
  else if unset (environ w (py "SOURCE_WORKSHEETS")) then
    Some (py "ERROR: SOURCE_WORKSHEETS not set")
  else if unset (environ w (py "GOOGLE_CHAT_WEBHOOK")) then
    Some (py "ERROR: GOOGLE_CHAT_WEBHOOK not set")
  else None.

(** The line [get_credentials] prints for an exception. *)
Definition credentials_line (e : exn) : pystr :=
  match e with
  | JSONDecodeError _ => py "ERROR: Invalid service account JSON format"
  | _ => py "ERROR: Authentication failed - " ++ exn_str e
  end.

(** The line [get_credentials] prints when it fails. *)
Definition credentials_error (w : world) : option pystr :=
  if unset (environ w (py "GOOGLE_SERVICE_ACCOUNT")) then
    Some (py "ERROR: GOOGLE_SERVICE_ACCOUNT environment variable not set")
  else
    match json_loads w (default [] (environ w (py "GOOGLE_SERVICE_ACCOUNT"))) with
    | inl e => Some (credentials_line e)
    | inr info =>
        match from_service_account_info w info SCOPES with
        | inl e => Some (credentials_line e)
        | inr _ => None
        end
    end.

(** The exception inside [get_worksheet_hash] at retrieval [k], if any: the
    one of the retrieval, or the one of the encoding. *)
Definition retrieval_exn (w : world) (c : credentials) (spreadsheet_id : pystr)
    (k : nat) (worksheet_name : pystr) : option exn :=
  match get_all_values w k c spreadsheet_id worksheet_name with
  | inl e => Some e
  | inr all_values =>
      match encode_utf8 (str_values (isprintable w) all_values) with
      | Some _ => None
      | None => Some (encode_error w (str_values (isprintable w) all_values))
      end
  end.

(** The line [get_worksheet_hash] prints for an exception. *)
Definition retrieval_line (e : exn) : pystr :=
  match e with
  | WorksheetNotFound _ => py "ERROR: Worksheet not found"
  | _ => py "ERROR: Failed to fetch worksheet data - " ++ exn_str e
  end.

(** The lines of a run up to the loading of the state. *)
Definition monitoring_line (w : world) : pystr :=
  py "Monitoring " ++ str_int (Z.of_nat (length (configured_names w))) ++ py " worksheet(s)".
Definition preamble (w : world) (st : state) : list pystr :=
  [py "Starting change detection..."; monitoring_line w; py "Authentication successful"]
    ++ load_warnings (hash_file st).

(** Nothing but the log and the count of retrievals differs. *)
Definition untouched (st st' : state) : Prop :=
  hash_file st' = hash_file st /\ posted st' = posted st /\
  clock_reads st' = clock_reads st.

(** No surrogate is printable. *)
Definition surrogates_unprintable (w : world) : Prop :=
  forall c, is_surrogate c = true -> isprintable w c = false.

(** ** Worlds that fail *)

Module Faulty.

(** GOOGLE_CHAT_WEBHOOK is empty, SOURCE_WORKSHEETS is not set. *)
Definition half_configured : world :=
  {| environ := fun name =>
       if bool_decide (name = py "SPREADSHEET_ID") then Some (py "1AbC")
       else if bool_decide (name = py "GOOGLE_CHAT_WEBHOOK") then Some []
       else None;
     isprintable := isprintable Demo.two_sheets;
     encode_error := encode_error Demo.two_sheets;
     json_loads := json_loads Demo.two_sheets;
     from_service_account_info := from_service_account_info Demo.two_sheets;
     get_all_values := get_all_values Demo.two_sheets;
     utcnow := utcnow Demo.two_sheets;
     requests_post := requests_post Demo.two_sheets;
     json_dump := json_dump Demo.two_sheets |}.

(** The service account is not JSON. *)
Definition bad_account : world :=
  {| environ := environ Demo.two_sheets;
     isprintable := isprintable Demo.two_sheets;
     encode_error := encode_error Demo.two_sheets;
     json_loads := fun _ => inl (JSONDecodeError (py "Expecting value: line 1 column 1 (char 0)"));
     from_service_account_info := from_service_account_info Demo.two_sheets;
     get_all_values := get_all_values Demo.two_sheets;
     utcnow := utcnow Demo.two_sheets;
     requests_post := requests_post Demo.two_sheets;
     json_dump := json_dump Demo.two_sheets |}.

(** The second worksheet does not exist. *)
Definition missing_rows (k : nat) (name : pystr) : exn + list (list pystr) :=
  if bool_decide (name = py "Shipments") then inl (WorksheetNotFound (py "Shipments"))
  else inr [[name; py "12"]].
Definition missing_sheet : world :=
  Demo.make (py "Eggs, Shipments, Feed") missing_rows (inr 200) (fun _ => None).

(** A state file that holds a list. *)
Definition list_state : state := State [] (Content (JList [])) 0 0 [].

(** A state file with the digest of Eggs and an entry of a worksheet no
    longer monitored. *)
Definition stale_state : state :=
  State [] (Content (dict [(py "Eggs", JStr (py "4cdd39b35fab5b56d70b8aaa5590f71c"));
                           (py "Feed", JStr (py "00000000000000000000000000000000"))]))
        0 0 [].

End Faulty.

(** ** Running the monad *)

Lemma bind_run {A B} (m : M A) (f : A -> M B) (st : state) :
  (m ≫= f) st =
  match m st with
  | (Normal a, st') => f a st'
  | (Raise e, st') => (Raise e, st')
  | (SysExit c, st') => (SysExit c, st')
  end.
Proof. reflexivity. Qed.

Lemma bind_normal {A B} (m : M A) (f : A -> M B) st a st' :
  m st = (Normal a, st') -> (m ≫= f) st = f a st'.
Proof. intros H. rewrite bind_run, H. reflexivity. Qed.

Lemma bind_normal_inv {A B} (m : M A) (f : A -> M B) st b st2 :
  (m ≫= f) st = (Normal b, st2) ->
  exists a st1, m st = (Normal a, st1) /\ f a st1 = (Normal b, st2).
Proof.
  rewrite bind_run. destruct (m st) as [[a|e|c] st1]; intros H; try discriminate.
  eauto.
Qed.

Lemma print_run line st : print line st = (Normal tt, printed [line] st).
Proof. reflexivity. Qed.

Lemma printed_nil st : printed [] st = st.
Proof. destruct st; unfold printed; simpl. by rewrite app_nil_r. Qed.

Lemma printed_printed l1 l2 st : printed l2 (printed l1 st) = printed (l1 ++ l2) st.
Proof. unfold printed; simpl. by rewrite app_assoc. Qed.

Lemma retrieved_O st : retrieved 0 st = st.
Proof. by destruct st. Qed.

Lemma retrieved_S n st : retrieved n (retrieved 1 st) = retrieved (S n) st.
Proof. unfold retrieved; simpl. f_equal. lia. Qed.

(** ** [get_worksheet_hash] *)

(** It returns exactly when the retrieval succeeds and the text can be
    encoded, and then with the digest; every failure ends in [sys.exit(1)]. *)
Lemma get_worksheet_hash_cases w sid name c st :
  (exists h, hash_at w c sid (retrievals st) name = Some h /\
             get_worksheet_hash w sid name c st = (Normal h, retrieved 1 st))
  \/ (hash_at w c sid (retrievals st) name = None /\
      exists st', get_worksheet_hash w sid name c st = (SysExit 1, st')).
Proof.
  unfold get_worksheet_hash, hash_at, content_hash, try_except.
  rewrite bind_run. unfold worksheet_get_all_values.
  destruct (get_all_values w (retrievals st) c sid name) as [e|values].
  - right. split; [done|]. destruct e; simpl; eauto.
  - unfold encode. destruct (encode_utf8 _) as [bytes|]; simpl.
    + left. eexists. split; [done|]. reflexivity.
    + right. split; [done|]. unfold mbind, M_bind, raise; simpl.
      destruct (encode_error w _); simpl; eauto.
Qed.

Lemma get_worksheet_hash_ok w sid name c st h :
  hash_at w c sid (retrievals st) name = Some h ->
  get_worksheet_hash w sid name c st = (Normal h, retrieved 1 st).
Proof.
  intros H. destruct (get_worksheet_hash_cases w sid name c st) as [(h' & H1 & H2)|[H1 _]];
    congruence.
Qed.

Lemma get_worksheet_hash_inv w sid name c st h st' :
  get_worksheet_hash w sid name c st = (Normal h, st') ->
  hash_at w c sid (retrievals st) name = Some h /\ st' = retrieved 1 st.
Proof.
  intros H. destruct (get_worksheet_hash_cases w sid name c st)
    as [(h' & H1 & H2)|[H1 [st2 H2]]]; rewrite H2 in H; by simplify_eq.
Qed.

(** [get_worksheet_hash] never lets an exception through. *)
Lemma get_worksheet_hash_no_raise w sid name c st e st' :
  get_worksheet_hash w sid name c st <> (Raise e, st').
Proof.
  destruct (get_worksheet_hash_cases w sid name c st)
    as [(h' & H1 & H2)|[H1 [st2 H2]]]; rewrite H2; discriminate.
Qed.

(** ** The loop over the worksheets *)

Lemma check_worksheets_ok w sid c last names : forall hs cur ch st,
  digests w c sid (retrievals st) names = Some hs ->
  check_worksheets w sid c (JDict last) names cur ch st =
    (Normal (recorded names hs cur, ch ++ changed_in (JDict last) names hs),
     retrieved (length names) st).
Proof.
  induction names as [|n names IH]; intros hs cur ch st Hd; simpl in Hd.
  - simplify_eq. simpl. by rewrite app_nil_r, retrieved_O.
  - destruct (hash_at w c sid (retrievals st) n) as [h|] eqn:Hh; [|done].
    destruct (digests w c sid (S (retrievals st)) names) as [hs'|] eqn:Hd'; [|done].
    simplify_eq. simpl.
    rewrite (bind_normal _ _ _ _ _ (get_worksheet_hash_ok _ _ _ _ _ _ Hh)).
    simpl. rewrite bind_run. simpl.
    rewrite (IH hs'); [|done].
    rewrite retrieved_S. f_equal. f_equal.
    destruct (ne_str _ _); simpl; by rewrite <- ?app_assoc.
Qed.

Lemma check_worksheets_inv w sid c lh names : forall cur ch st cur' ch' st',
  check_worksheets w sid c lh names cur ch st = (Normal (cur', ch'), st') ->
  exists hs,
    digests w c sid (retrievals st) names = Some hs /\
    (names <> [] -> is_dict lh) /\
    cur' = recorded names hs cur /\
    ch' = ch ++ changed_in lh names hs /\
    st' = retrieved (length names) st.
Proof.
  induction names as [|n names IH]; intros cur ch st cur' ch' st' H; simpl in H.
  - unfold mret, M_ret in H. simplify_eq. exists []. simpl.
    by rewrite app_nil_r, retrieved_O.
  - apply bind_normal_inv in H as (h & st1 & Hg & H).
    apply get_worksheet_hash_inv in Hg as [Hh ->].
    apply bind_normal_inv in H as (lasth & st2 & Hget & H).
    destruct lh; try discriminate Hget.
    unfold dict_get, mret, M_ret in Hget; simplify_eq.
    apply IH in H as (hs & Hd & _ & -> & -> & ->).
    exists (h :: hs). simpl. simpl in Hd. rewrite Hh, Hd.
    rewrite retrieved_S. repeat split; try done.
    destruct (ne_str _ _); simpl; by rewrite <- ?app_assoc.
Qed.

Lemma try_except_normal_inv {A} (body : M A) (handler : exn -> M A) st a st2 :
  try_except body handler st = (Normal a, st2) ->
  body st = (Normal a, st2) \/
  exists e st1, body st = (Raise e, st1) /\ handler e st1 = (Normal a, st2).
Proof.
  unfold try_except. destruct (body st) as [[a'|e|c] st1]; intros H; eauto.
Qed.

(** ** [get_credentials] *)

Lemma get_credentials_cases w st :
  (exists c, unset (environ w (py "GOOGLE_SERVICE_ACCOUNT")) = false /\
             run_credentials w = Some c /\
             get_credentials w st = (Normal c, printed [py "Authentication successful"] st))
  \/ ((unset (environ w (py "GOOGLE_SERVICE_ACCOUNT")) = true \/ run_credentials w = None) /\
      exists st', get_credentials w st = (SysExit 1, st')).
Proof.
  unfold get_credentials, run_credentials.
  destruct (unset (environ w (py "GOOGLE_SERVICE_ACCOUNT"))) eqn:Hset.
  { right. split; [by left|]. rewrite bind_run, print_run. eauto. }
  unfold try_except. rewrite bind_run.
  destruct (json_loads w _) as [e|info]; simpl.
  { right. split; [by right|]. destruct e; simpl; eauto. }
  rewrite bind_run.
  destruct (from_service_account_info w info SCOPES) as [e|c]; simpl.
  { right. split; [by right|]. destruct e; simpl; eauto. }
  left. exists c. repeat split; done.
Qed.

(** ** [load_last_hashes] and [save_hashes] *)

Lemma load_last_hashes_run st :
  load_last_hashes st =
    (Normal (loaded (hash_file st)), printed (load_warnings (hash_file st)) st).
Proof.
  unfold load_last_hashes, try_except, path_exists, read_json, loaded, load_warnings.
  rewrite bind_run.
  destruct (hash_file st) as [|e|data] eqn:Hf; simpl.
  - by rewrite printed_nil.
  - rewrite bind_run, Hf. reflexivity.
  - rewrite bind_run, Hf. simpl. unfold mret, M_ret. by rewrite printed_nil.
Qed.

Lemma save_hashes_ok w data st :
  json_dump w data = None ->
  save_hashes w data st =
    (Normal tt, printed [py "Hash file updated successfully"] (with_file (Content data) st)).
Proof.
  intros H. unfold save_hashes, try_except, write_json.
  rewrite bind_run, H. reflexivity.
Qed.

Lemma save_hashes_fails w data st e remains :
  json_dump w data = Some (e, remains) ->
  save_hashes w data st =
    (SysExit 1, printed [py "ERROR: Failed to save hashes - " ++ exn_str e]
                        (with_file remains st)).
Proof.
  intros H. unfold save_hashes, try_except, write_json.
  rewrite bind_run, H. reflexivity.
Qed.

(** ** [send_google_chat_card] *)

(** The notifier always returns, leaves the state file alone, reads the
    clock once and makes at most one request. *)
Lemma send_google_chat_card_run w url changed sid st :
  exists b lines,
    send_google_chat_card w url changed sid st =
      (Normal b,
       State (stdout st ++ lines) (hash_file st) (retrievals st) (S (clock_reads st))
             (posted st ++ request url changed sid (utcnow w (clock_reads st)))).
Proof.
  unfold send_google_chat_card, try_except, request.
  rewrite bind_run. unfold datetime_utcnow. rewrite bind_run.
  destruct (add_hour (utcnow w (clock_reads st))) as [t|]; simpl.
  - rewrite bind_run. unfold post; simpl.
    destruct (requests_post w url _) as [e|code]; simpl.
    + eexists false, [_]. reflexivity.
    + destruct (code =? 200); simpl; [eexists true, [_]|eexists false, [_]]; reflexivity.
  - eexists false, [_]. rewrite app_nil_r. reflexivity.
Qed.

(** What the notifier returns when the webhook answers with [code]. *)
Lemma send_google_chat_card_status w url changed sid st t code :
  add_hour (utcnow w (clock_reads st)) = Some t ->
  requests_post w url (card (strftime_wat t) changed sid) = inr code ->
  (send_google_chat_card w url changed sid st).1 = Normal (code =? 200).
Proof.
  intros Ht Hp. unfold send_google_chat_card, try_except.
  rewrite bind_run. unfold datetime_utcnow. rewrite bind_run, Ht. simpl.
  rewrite bind_run. unfold post; simpl. rewrite Hp.
  by destruct (code =? 200).
Qed.

(** What the notifier returns when the transport fails. *)
Lemma send_google_chat_card_error w url changed sid st t e :
  add_hour (utcnow w (clock_reads st)) = Some t ->
  requests_post w url (card (strftime_wat t) changed sid) = inl e ->
  (send_google_chat_card w url changed sid st).1 = Normal false.
Proof.
  intros Ht Hp. unfold send_google_chat_card, try_except.
  rewrite bind_run. unfold datetime_utcnow. rewrite bind_run, Ht. simpl.
  rewrite bind_run. unfold post; simpl. by rewrite Hp.
Qed.

(** The loop either goes through every worksheet, or ends the run: in
    [sys.exit(1)] when a retrieval fails, in an exception when the loaded
    state is not a dictionary. *)
Lemma check_worksheets_cases w sid c lh names : forall cur ch st,
  (exists hs,
     digests w c sid (retrievals st) names = Some hs /\
     (names <> [] -> is_dict lh) /\
     check_worksheets w sid c lh names cur ch st =
       (Normal (recorded names hs cur, ch ++ changed_in lh names hs),
        retrieved (length names) st))
  \/ (~ (is_Some (digests w c sid (retrievals st) names) /\ (names <> [] -> is_dict lh)) /\
      exists st', check_worksheets w sid c lh names cur ch st = (SysExit 1, st')
                  \/ exists e, check_worksheets w sid c lh names cur ch st = (Raise e, st')).
Proof.
  induction names as [|n names IH]; intros cur ch st.
  - left. exists []. simpl. rewrite app_nil_r, retrieved_O. done.
  - simpl. rewrite bind_run.
    destruct (get_worksheet_hash_cases w sid n c st) as [(h & Hh & ->)|(Hh & st1 & ->)].
    2:{ right. rewrite Hh. split; [intros [[? ?] _]; done|]. eauto. }
    rewrite Hh. rewrite bind_run.
    destruct lh as [| | | | | |last].
    1-6: right; split; [intros [_ Hd]; by apply Hd|]; eexists; right; eexists; reflexivity.
    simpl.
    destruct (IH (<[n:=JStr h]> cur)
                 (if ne_str (default JNull (last !! n)) h then ch ++ [n] else ch)
                 (retrieved 1 st)) as [(hs & Hd & _ & Hrun)|(Hno & st' & Hrun)].
    + left. exists (h :: hs). simpl in Hd. rewrite Hd. split; [done|]. split; [done|].
      rewrite Hrun, retrieved_S. simpl. f_equal. f_equal.
      destruct (ne_str _ _); simpl; by rewrite <- ?app_assoc.
    + right. split.
      * intros [[hs Hs] _]. apply Hno. simpl.
        destruct (digests w c sid (S (retrievals st)) names); [|done]. split; [eauto|done].
      * exists st'. exact Hrun.
Qed.

Lemma split_nonempty sep s : split sep s <> [].
Proof. destruct s as [|c r]; simpl; [done|]. destruct (c =? sep); [done|]. by destruct (split sep r). Qed.

(** ** [main] *)

(** Every run of [main]: either it reaches [save_hashes], and ends as the
    write of the new state ends, or it ends in [sys.exit(1)] before. *)
Lemma main_run w st :
  (reaches_save w st /\
   exists lines,
     main w st =
       match json_dump w (JDict (run_hashes w st)) with
       | None =>
           (Normal (bool_decide (run_changed w st <> [])),
            State (stdout st ++ lines ++ [py "Hash file updated successfully"])
                  (Content (JDict (run_hashes w st)))
                  (length (configured_names w) + retrievals st)
                  (run_clock_reads w st)
                  (posted st ++ run_requests w st))
       | Some (e, remains) =>
           (SysExit 1,
            State (stdout st ++ lines ++ [py "ERROR: Failed to save hashes - " ++ exn_str e])
                  remains
                  (length (configured_names w) + retrievals st)
                  (run_clock_reads w st)
                  (posted st ++ run_requests w st))
       end)
  \/ (~ reaches_save w st /\ exists st', main w st = (SysExit 1, st')).
Proof.
  unfold main, try_except. rewrite bind_run, print_run.
  destruct (unset (environ w (py "SPREADSHEET_ID"))) eqn:E1.
  { right. split; [intros (? & _); congruence|]. simpl. eauto. }
  destruct (unset (environ w (py "SOURCE_WORKSHEETS"))) eqn:E2.
  { right. split; [intros (_ & ? & _); congruence|]. simpl. eauto. }
  destruct (unset (environ w (py "GOOGLE_CHAT_WEBHOOK"))) eqn:E3.
  { right. split; [intros (_ & _ & ? & _); congruence|]. simpl. eauto. }
  rewrite bind_run, print_run, bind_run.
  match goal with |- context [get_credentials w ?s] =>
    destruct (get_credentials_cases w s) as [(c & E4 & Hc & ->)|(Hno & st1 & ->)] end.
  2:{ right. split; [|eauto].
      intros (_ & _ & _ & E4 & [hs Hd] & _). unfold run_digests in Hd.
      destruct Hno as [Hno|Hno]; [congruence|]. by rewrite Hno in Hd. }
  rewrite bind_run, load_last_hashes_run. simpl hash_file.
  rewrite bind_run.
  fold (configured_names w). fold (env_spreadsheet_id w). fold (env_webhook w).
  match goal with |- context [check_worksheets w ?sid c ?lh ?names ∅ [] ?s] =>
    destruct (check_worksheets_cases w sid c lh names ∅ [] s)
      as [(hs & Hd & Hdict & ->)|(Hno & st1 & [-> | [e ->]])] end.
  2,3: right; (split; [|simpl; eauto]);
       intros (_ & _ & _ & _ & Hd & Hdict); apply Hno;
       unfold run_digests in Hd; rewrite Hc in Hd; simpl; split; done.
  simpl in Hd.
  assert (Hrd : run_digests w st = Some hs) by (unfold run_digests; by rewrite Hc).
  assert (Hne : configured_names w <> []).
  { unfold configured_names. intros Hnil. apply map_eq_nil in Hnil.
    by apply split_nonempty in Hnil. }
  left. split.
  { unfold reaches_save. rewrite Hrd. repeat split; eauto. }
  rewrite bind_run. unfold datetime_utcnow at 1.
  cbn [clock_reads retrieved printed app stdout hash_file retrievals posted].
  unfold run_hashes, run_requests, run_clock_reads, run_changed. rewrite Hrd.
  cbn [default from_option id].
  destruct (changed_in (loaded (hash_file st)) (configured_names w) hs) as [|n0 ch] eqn:Hch.
  - rewrite bind_run, print_run, bind_run.
    destruct (json_dump w _) as [[e remains]|] eqn:Hw.
    + erewrite save_hashes_fails by exact Hw.
      unfold printed, with_file; cbn [clock_reads stdout hash_file retrievals posted].
      rewrite app_nil_r. eexists ([_] ++ [_] ++ [_] ++ load_warnings (hash_file st) ++ [_]).
      rewrite <- !app_assoc. reflexivity.
    + erewrite save_hashes_ok by exact Hw.
      unfold printed, with_file; cbn [clock_reads stdout hash_file retrievals posted].
      rewrite bool_decide_eq_false_2 by (intros Hx; by apply Hx).
      rewrite app_nil_r. eexists ([_] ++ [_] ++ [_] ++ load_warnings (hash_file st) ++ [_]).
      rewrite <- !app_assoc. reflexivity.
  - rewrite bind_run, print_run, bind_run.
    match goal with |- context [send_google_chat_card w ?u ?l ?i ?s] =>
      destruct (send_google_chat_card_run w u l i s) as (b & lines & ->) end.
    rewrite bind_run.
    cbn [clock_reads retrieved printed with_file app stdout hash_file retrievals posted].
    destruct (json_dump w _) as [[e remains]|] eqn:Hw.
    + erewrite save_hashes_fails by exact Hw.
      unfold printed, with_file; cbn [clock_reads stdout hash_file retrievals posted].
      eexists ([_] ++ [_] ++ [_] ++ load_warnings (hash_file st) ++ [_] ++ lines).
      rewrite <- !app_assoc. reflexivity.
    + erewrite save_hashes_ok by exact Hw.
      unfold printed, with_file; cbn [clock_reads stdout hash_file retrievals posted].
      rewrite bool_decide_eq_true_2 by done.
      eexists ([_] ++ [_] ++ [_] ++ load_warnings (hash_file st) ++ [_] ++ lines).
      rewrite <- !app_assoc. reflexivity.
Qed.

(** A run that returns got to [save_hashes], wrote the new state, and
    returns whether a worksheet changed. *)
Lemma main_inv w st b st' :
  main w st = (Normal b, st') ->
  reaches_save w st /\
  json_dump w (JDict (run_hashes w st)) = None /\
  b = bool_decide (run_changed w st <> []) /\
  hash_file st' = Content (JDict (run_hashes w st)) /\
  retrievals st' = (length (configured_names w) + retrievals st)%nat /\
  posted st' = posted st ++ run_requests w st.
Proof.
  intros H. destruct (main_run w st) as [(Hr & lines & Hm)|(_ & st1 & Hm)];
    rewrite Hm in H; [|discriminate].
  destruct (json_dump w _) as [[e remains]|]; [discriminate|].
  by simplify_eq.
Qed.

Lemma main_ok w st :
  reaches_save w st ->
  json_dump w (JDict (run_hashes w st)) = None ->
  exists st', main w st = (Normal (bool_decide (run_changed w st <> [])), st').
Proof.
  intros Hr Hw. destruct (main_run w st) as [(_ & lines & Hm)|(Hno & _)]; [|done].
  rewrite Hw in Hm. eauto.
Qed.

(** A run that gets as far as [save_hashes]: it has made one retrieval for
    every configured name and the request the change list calls for, and
    returns unless the write fails. *)
Lemma main_saves w st :
  reaches_save w st ->
  exists st',
    main w st =
      (match json_dump w (JDict (run_hashes w st)) with
       | None => Normal (bool_decide (run_changed w st <> []))
       | Some _ => SysExit 1
       end, st') /\
    retrievals st' = (length (configured_names w) + retrievals st)%nat /\
    posted st' = posted st ++ run_requests w st.
Proof.
  intros Hr. destruct (main_run w st) as [(_ & lines & Hm)|(Hno & _)]; [|done].
  rewrite Hm. destruct (json_dump w _) as [[e remains]|]; eexists; done.
Qed.

(** [main] never lets an exception through: it returns or exits with
    status 1. *)
Lemma main_outcome w st :
  (exists b st', main w st = (Normal b, st')) \/ (exists st', main w st = (SysExit 1, st')).
Proof.
  destruct (main_run w st) as [(_ & lines & Hm)|(_ & st1 & Hm)]; [|eauto].
  destruct (json_dump w _) as [[e remains]|]; eauto.
Qed.

(** ** The change detector *)

Lemma ne_str_true v s : ne_str v s = true <-> v <> JStr s.
Proof.
  destruct v; simpl; try (split; [discriminate|done]).
  rewrite negb_true_iff, bool_decide_eq_false. split; congruence.
Qed.

Lemma ne_str_entry (last : gmap pystr json) (n h : pystr) :
  ne_str (prior_entry (JDict last) n) h = true <->
  last !! n = None \/ exists v, last !! n = Some v /\ v <> JStr h.
Proof.
  rewrite ne_str_true. simpl. destruct (last !! n) as [v|]; simpl.
  - split; [intros H; right; eauto|]. intros [?|(v' & ? & ?)]; congruence.
  - split; [by left|done].
Qed.

(** When the content of a worksheet does not depend on the retrieval, the
    digests are those of the names. *)
Lemma digests_stable (w : world) (c : credentials) (sid : pystr) (d : pystr -> pystr)
    (names : list pystr) : forall k,
  (forall k n, n ∈ names -> hash_at w c sid k n = Some (d n)) ->
  digests w c sid k names = Some (map d names).
Proof.
  induction names as [|n names IH]; intros k H; simpl; [done|].
  rewrite H by set_solver. rewrite IH; [done|]. intros k' m Hm; apply H; set_solver.
Qed.

Lemma changed_in_stable (lh : json) (d : pystr -> pystr) (names : list pystr) :
  changed_in lh names (map d names) =
  List.filter (fun n => ne_str (prior_entry lh n) (d n)) names.
Proof.
  induction names as [|n names IH]; simpl; [done|].
  rewrite IH. by destruct (ne_str _ _).
Qed.

Lemma recorded_lookup_other (names : list pystr) : forall hs (cur : gmap pystr json) n,
  n ∉ names -> recorded names hs cur !! n = cur !! n.
Proof.
  induction names as [|m names IH]; intros hs cur n Hn; simpl; [done|].
  destruct hs as [|h hs]; [done|].
  rewrite IH by set_solver. apply lookup_insert_ne. set_solver.
Qed.

Lemma recorded_stable (d : pystr -> pystr) (names : list pystr) :
  forall (cur : gmap pystr json) n,
  n ∈ names -> recorded names (map d names) cur !! n = Some (JStr (d n)).
Proof.
  induction names as [|m names IH]; intros cur n Hn; simpl; [set_solver|].
  destruct (decide (n ∈ names)) as [Hin|Hnin]; [by apply IH|].
  rewrite recorded_lookup_other by done.
  assert (n = m) as -> by set_solver. apply lookup_insert_eq.
Qed.

Lemma filter_sublist {A} (f : A -> bool) (l : list A) : List.filter f l `sublist_of` l.
Proof.
  induction l as [|x l IH]; simpl; [constructor|].
  destruct (f x); by constructor.
Qed.

(** C1: for any requested names, any prior mapping and any current digests
    (one for each name, [d]), the loop of [main] records the digest of every
    requested name and reports a name as changed exactly when it is
    requested and has no prior entry or a prior entry other than its
    digest; the names reported are the requested ones that changed, in the
    order of the request. *)
Theorem change_detector_spec (w : world) (sid : pystr) (c : credentials)
    (last : gmap pystr json) (names : list pystr) (d : pystr -> pystr) (st : state) :
  (forall k n, n ∈ names -> hash_at w c sid k n = Some (d n)) ->
  exists current_hashes changed_worksheets st',
    check_worksheets w sid c (JDict last) names ∅ [] st =
      (Normal (current_hashes, changed_worksheets), st') /\
    (forall n, n ∈ names -> current_hashes !! n = Some (JStr (d n))) /\
    (forall n, n ∈ changed_worksheets <->
               n ∈ names /\
               (last !! n = None \/ exists v, last !! n = Some v /\ v <> JStr (d n))) /\
    changed_worksheets =
      List.filter (fun n => ne_str (prior_entry (JDict last) n) (d n)) names /\
    changed_worksheets `sublist_of` names.
Proof.
  intros H.
  eexists _, _, _. split.
  { apply check_worksheets_ok. by apply digests_stable. }
  rewrite changed_in_stable. simpl app.
  split; [intros n Hn; by apply recorded_stable|].
  split; [|split; [done|apply filter_sublist]].
  intros n. rewrite list_elem_of_In, filter_In, <- list_elem_of_In. 
  pose proof (ne_str_entry last n (d n)) as E. simpl in E. by rewrite E.
Qed.


Lemma change_detector_witness :
  exists current_hashes st',
    check_worksheets Demo.two_sheets (py "1AbC") Demo.creds
      (JDict {[ py "Eggs" := JStr (py "4cdd39b35fab5b56d70b8aaa5590f71c") ]})
      [py "Eggs"; py "Shipments"] ∅ [] Demo.start =
    (Normal (current_hashes, [py "Shipments"]), st').
Proof.
  destruct (change_detector_spec Demo.two_sheets (py "1AbC") Demo.creds
              {[ py "Eggs" := JStr (py "4cdd39b35fab5b56d70b8aaa5590f71c") ]}
              [py "Eggs"; py "Shipments"]
              (fun n => default [] (content_hash Demo.two_sheets [[n; py "12"]]))
              Demo.start)
    as (cur & ch & st' & Hrun & _ & _ & Hch & _).
  - intros k n Hn. apply list_elem_of_In in Hn.
    destruct Hn as [<-|[<-|[]]]; vm_compute; reflexivity.
  - exists cur, st'. rewrite Hrun, Hch. vm_compute. reflexivity.
Defined.

(** ** The notifier *)

(** C5, as the code has it: when the webhook answers with a status code,
    the notifier reports success if and only if the code is 200. *)
Theorem delivery_succeeds_iff_200 (w : world) (url : pystr) (changed : list pystr)
    (sid : pystr) (st : state) (t : datetime) (code : Z) :
  add_hour (utcnow w (clock_reads st)) = Some t ->
  requests_post w url (card (strftime_wat t) changed sid) = inr code ->
  ((send_google_chat_card w url changed sid st).1 = Normal true <-> code = 200) /\
  ((send_google_chat_card w url changed sid st).1 = Normal false <-> code <> 200).
Proof.
  intros Ht Hp. rewrite (send_google_chat_card_status w url changed sid st t code Ht Hp).
  destruct (Z.eqb_spec code 200); split; split; intros; congruence.
Qed.

Lemma delivery_succeeds_iff_200_witness :
  (send_google_chat_card Demo.two_sheets (py "https://chat.example/hook") [py "Eggs"]
     (py "1AbC") Demo.start).1 = Normal true.
Proof.
  apply (delivery_succeeds_iff_200 Demo.two_sheets (py "https://chat.example/hook")
           [py "Eggs"] (py "1AbC") Demo.start (DateTime 2024 5 17 10 30 0 0) 200);
    reflexivity.
Defined.

(** C5, as stated, fails: a 204 answer is in the 2xx range and is reported
    as a failed delivery. *)
Lemma delivery_204_is_failure :
  requests_post Demo.no_content (py "https://chat.example/hook")
    (card (py "2024-05-17 10:30:00 WAT") [py "Eggs"] (py "1AbC")) = inr 204 /\
  200 <= 204 < 300 /\
  (send_google_chat_card Demo.no_content (py "https://chat.example/hook") [py "Eggs"]
     (py "1AbC") Demo.start).1 = Normal false.
Proof. split; [reflexivity|]. split; [lia|]. vm_compute. reflexivity. Qed.

(** The notifier reports failure, and touches nothing but the log, the
    clock and the list of requests, when the webhook never answers 200. *)
Lemma send_google_chat_card_fails (w : world) (url : pystr) (changed : list pystr)
    (sid : pystr) (st : state) :
  (forall u body, requests_post w u body <> inr 200) ->
  exists st', send_google_chat_card w url changed sid st = (Normal false, st') /\
              hash_file st' = hash_file st.
Proof.
  intros Hfail. unfold send_google_chat_card, try_except.
  rewrite bind_run. unfold datetime_utcnow. rewrite bind_run.
  destruct (add_hour (utcnow w (clock_reads st))) as [t|];
    cbn [mret M_ret raise]; [|eexists; split; reflexivity].
  rewrite bind_run. unfold post. cbn [stdout hash_file retrievals clock_reads posted].
  destruct (requests_post w url _) as [e|code] eqn:Hp; [eexists; split; reflexivity|].
  destruct (Z.eqb_spec code 200) as [->|Hne]; [by apply Hfail in Hp|].
  eexists; split; reflexivity.
Qed.

(** C3: when the delivery fails (the webhook never answers 200: it answers
    another status or the transport raises), the notifier returns False
    instead of raising and leaves the state file alone, and a run that got
    to the notification still writes the current digests and returns. *)
Theorem notification_failure_keeps_run (w : world) (st : state) :
  (forall url body, requests_post w url body <> inr 200) ->
  (forall url changed sid s, exists s',
      send_google_chat_card w url changed sid s = (Normal false, s') /\
      hash_file s' = hash_file s) /\
  (reaches_save w st -> json_dump w (JDict (run_hashes w st)) = None ->
   exists st', main w st = (Normal (bool_decide (run_changed w st <> [])), st') /\
               posted st' = posted st ++ run_requests w st /\
               hash_file st' = Content (JDict (run_hashes w st))).
Proof.
  intros Hfail. split.
  - intros url changed sid s. by apply send_google_chat_card_fails.
  - intros Hr Hw. destruct (main_ok w st Hr Hw) as [st' Hm].
    exists st'. split; [done|]. by apply main_inv in Hm as (_ & _ & _ & ? & _ & ?).
Qed.

Lemma notification_failure_witness :
  exists st',
    main Demo.unreachable Demo.start = (Normal true, st') /\
    length (posted st') = 1%nat /\
    hash_file st' = Content (JDict (run_hashes Demo.unreachable Demo.start)).
Proof.
  destruct (notification_failure_keeps_run Demo.unreachable Demo.start) as [_ H].
  - intros url body. discriminate.
  - destruct H as (st' & Hm & Hp & Hf).
    + unfold reaches_save. repeat split; try reflexivity.
      eexists. vm_compute. reflexivity.
    + reflexivity.
    + exists st'. split; [rewrite Hm; vm_compute; reflexivity|].
      split; [rewrite Hp; vm_compute; reflexivity|exact Hf].
Defined.

(** ** The state file *)

Lemma changed_in_empty (names : list pystr) : forall hs,
  length hs = length names -> changed_in (JDict ∅) names hs = names.
Proof.
  induction names as [|n names IH]; intros [|h hs] Hlen; simpl in *; try done.
  rewrite lookup_empty. simpl. f_equal. apply IH. lia.
Qed.

Lemma digests_length (w : world) (c : credentials) (sid : pystr) (names : list pystr) :
  forall k hs, digests w c sid k names = Some hs -> length hs = length names.
Proof.
  induction names as [|n names IH]; intros k hs H; simpl in H; [by simplify_eq|].
  destruct (hash_at w c sid k n); [|done].
  destruct (digests w c sid (S k) names) eqn:Hd; [|done].
  simplify_eq. simpl. f_equal. by eapply IH.
Qed.

(** C6: when the state file is missing or cannot be read or parsed,
    [load_last_hashes] returns the empty state instead of failing, and the
    loop reports every worksheet it is given.  A run from such a state whose
    configuration, credentials and retrievals are in order therefore makes
    one retrieval per configured worksheet and requests one notification,
    whose card lists every configured worksheet; it returns [True], unless
    the write of the new state fails. *)
Theorem missing_or_corrupt_state (w : world) (st : state) :
  hash_file st = Absent \/ (exists e, hash_file st = Unreadable e) ->
  (exists st', load_last_hashes st = (Normal (JDict ∅), st') /\
               hash_file st' = hash_file st) /\
  (forall sid c names cur ch s s',
     check_worksheets w sid c (loaded (hash_file st)) names ∅ [] s = (Normal (cur, ch), s') ->
     ch = names) /\
  (reaches_save w st ->
   exists st',
     main w st =
       (match json_dump w (JDict (run_hashes w st)) with
        | None => Normal true
        | Some _ => SysExit 1
        end, st') /\
     retrievals st' = (length (configured_names w) + retrievals st)%nat /\
     posted st' =
       posted st ++
       match add_hour (utcnow w (S (clock_reads st))) with
       | Some t => [(env_webhook w,
                     card (strftime_wat t) (configured_names w) (env_spreadsheet_id w))]
       | None => []
       end).
Proof.
  intros Hf.
  assert (Hl : loaded (hash_file st) = JDict ∅) by (by destruct Hf as [->|[e ->]]).
  split; [|split].
  - rewrite load_last_hashes_run, Hl. eauto.
  - intros sid c names cur ch s s' H. rewrite Hl in H.
    apply check_worksheets_inv in H as (hs & Hd & _ & _ & -> & _).
    simpl. apply changed_in_empty. by eapply digests_length.
  - intros Hr. pose proof Hr as (_ & _ & _ & _ & [hs Hd] & _).
    assert (Hch : run_changed w st = configured_names w).
    { unfold run_changed. rewrite Hl, Hd. simpl. apply changed_in_empty.
      unfold run_digests in Hd. destruct (run_credentials w); [|done].
      by eapply digests_length. }
    assert (Hne : configured_names w <> []).
    { unfold configured_names. intros Hnil. apply map_eq_nil in Hnil.
      by apply split_nonempty in Hnil. }
    destruct (main_saves w st Hr) as (st' & Hm & Hk & Hp).
    exists st'. split; [|split; [done|]].
    + rewrite Hm, Hch. by rewrite bool_decide_eq_true_2.
    + rewrite Hp. unfold run_requests. rewrite Hch.
      by destruct (configured_names w).
Qed.

Lemma missing_or_corrupt_state_witness :
  exists st',
    main Demo.two_sheets Demo.start = (Normal true, st') /\
    retrievals st' = 2%nat /\
    posted st' = [(py "https://chat.example/hook",
                   card (py "2024-05-17 10:30:01 WAT") [py "Eggs"; py "Shipments"]
                        (py "1AbC"))].
Proof.
  assert (Hf : hash_file Demo.start = Absent \/
               (exists e, hash_file Demo.start = Unreadable e)) by (left; reflexivity).
  assert (Hr : reaches_save Demo.two_sheets Demo.start).
  { unfold reaches_save. split; [reflexivity|]. split; [reflexivity|].
    split; [reflexivity|]. split; [reflexivity|]. split; [|exact I].
    eexists. vm_compute. reflexivity. }
  destruct (missing_or_corrupt_state Demo.two_sheets Demo.start Hf)
    as (_ & _ & Hrun).
  destruct (Hrun Hr) as (st' & Hm & Hk & Hp).
  exists st'. split; [|split].
  - rewrite Hm. vm_compute. reflexivity.
  - rewrite Hk. vm_compute. reflexivity.
  - rewrite Hp. vm_compute. reflexivity.
Defined.

(** The first run on two worksheets: both are reported, in order. *)
Example first_run_reports_all :
  exists st', main Demo.two_sheets Demo.start = (Normal true, st') /\
    posted st' = [(py "https://chat.example/hook",
                   card (py "2024-05-17 10:30:01 WAT") [py "Eggs"; py "Shipments"]
                        (py "1AbC"))].
Proof. eexists. split; vm_compute; reflexivity. Qed.

(** C7: when the write of the state file fails, [save_hashes] prints the
    diagnostic and ends in [sys.exit(1)], and so does the run: it exits
    with status 1, never returns, and when it got as far as saving, its
    last line is the diagnostic. *)
Theorem save_failure_is_fatal (w : world) (st : state) (e : exn) (remains : file) :
  json_dump w (JDict (run_hashes w st)) = Some (e, remains) ->
  (forall s,
     save_hashes w (JDict (run_hashes w st)) s =
       (SysExit 1, printed [py "ERROR: Failed to save hashes - " ++ exn_str e]
                           (with_file remains s))) /\
  (exists st', main w st = (SysExit 1, st') /\
     (reaches_save w st ->
        last (stdout st') = Some (py "ERROR: Failed to save hashes - " ++ exn_str e) /\
        hash_file st' = remains)).
Proof.
  intros Hw. split; [intros s; by apply save_hashes_fails|].
  destruct (main_run w st) as [(Hr & lines & Hm)|(Hno & st' & Hm)].
  - rewrite Hw in Hm. eexists. split; [exact Hm|]. intros _.
    cbn [stdout hash_file]. split; [|done].
    by rewrite app_assoc, last_snoc.
  - exists st'. split; [done|]. intros Hr. by destruct Hno.
Qed.

Lemma save_failure_witness :
  exists st', main Demo.read_only Demo.start = (SysExit 1, st') /\
    (reaches_save Demo.read_only Demo.start ->
       last (stdout st') =
         Some (py "ERROR: Failed to save hashes - [Errno 30] Read-only file system") /\
       hash_file st' = Absent).
Proof.
  apply (save_failure_is_fatal Demo.read_only Demo.start
           (Exception (py "[Errno 30] Read-only file system")) Absent).
  reflexivity.
Defined.

(** ** Duplicate names *)

Lemma digests_each (w : world) (c : credentials) (sid : pystr) (names : list pystr) :
  forall k hs, digests w c sid k names = Some hs ->
  Forall2 (fun n h => exists k', hash_at w c sid k' n = Some h) names hs.
Proof.
  induction names as [|n names IH]; intros k hs H; simpl in H; [by simplify_eq|].
  destruct (hash_at w c sid k n) eqn:Hh; [|done].
  destruct (digests w c sid (S k) names) eqn:Hd; [|done].
  simplify_eq. constructor; eauto.
Qed.

Lemma occurrences_cons (n m : pystr) (l : list pystr) :
  occurrences n (m :: l) = ((if bool_decide (m = n) then 1 else 0) + occurrences n l)%nat.
Proof. unfold occurrences. simpl. by destruct (bool_decide (m = n)). Qed.

Lemma changed_in_occurrences (R : pystr -> pystr -> Prop) (lh : json) (n : pystr)
    (names hs : list pystr) :
  Forall2 R names hs ->
  (forall h, R n h -> ne_str (prior_entry lh n) h = true) ->
  occurrences n (changed_in lh names hs) = occurrences n names.
Proof.
  intros HR Hn. induction HR as [|m h names hs Hmh _ IH]; [done|].
  simpl. rewrite occurrences_cons. case_bool_decide as Hm.
  - subst m. rewrite (Hn h Hmh). simpl. rewrite occurrences_cons.
    rewrite bool_decide_eq_true_2 by done. by rewrite IH.
  - destruct (ne_str _ _); simpl; [|done].
    rewrite occurrences_cons. by rewrite bool_decide_eq_false_2 by done.
Qed.

(** The same worksheet listed twice: it is counted and listed twice in the
    card. *)
Example duplicate_in_card :
  exists st', main Demo.twice Demo.start = (Normal true, st') /\
    posted st' = [(py "https://chat.example/hook",
                   card (py "2024-05-17 10:30:01 WAT") [py "Eggs"; py "Eggs"] (py "1AbC"))].
Proof. eexists. split; vm_compute; reflexivity. Qed.

(** ** The timestamp key *)

Lemma hex_digit_is_hex (x : Z) : is_hex (hex_digit (x mod 16)).
Proof.
  pose proof (Z.mod_pos_bound x 16 ltac:(lia)) as Hb.
  unfold is_hex, hex_digit. destruct (Z.ltb_spec (x mod 16) 10); lia.
Qed.

Lemma hex_fixed_is_hex (n : nat) : forall x, Forall is_hex (hex_fixed n x).
Proof.
  induction n as [|n IH]; intros x; simpl; [constructor|].
  apply Forall_app. split; [apply IH|]. constructor; [apply hex_digit_is_hex|constructor].
Qed.

Lemma hexdigest_is_hex (msg : list Z) : Forall is_hex (MD5.hexdigest msg).
Proof.
  unfold MD5.hexdigest, MD5.hex_of. induction (MD5.digest msg) as [|b bs IH].
  - constructor.
  - cbn [map concat]. apply Forall_app. split; [apply (hex_fixed_is_hex 2)|exact IH].
Qed.

Lemma isoformat_has_T (d : datetime) : 84 ∈ isoformat d.
Proof.
  unfold isoformat. rewrite !elem_of_app.
  do 5 right. left. apply list_elem_of_here.
Qed.

(** A timestamp is never a digest. *)
Lemma isoformat_not_hexdigest (d : datetime) (msg : list Z) :
  isoformat d <> MD5.hexdigest msg.
Proof.
  intros H. pose proof (isoformat_has_T d) as HT. rewrite H in HT.
  pose proof (hexdigest_is_hex msg) as Hh. rewrite Forall_forall in Hh.
  apply Hh in HT. unfold is_hex in HT. lia.
Qed.

Lemma hash_at_hexdigest (w : world) (c : credentials) (sid : pystr) (k : nat)
    (n h : pystr) :
  hash_at w c sid k n = Some h -> exists bytes, h = MD5.hexdigest bytes.
Proof.
  unfold hash_at, content_hash. destruct (get_all_values w k c sid n); [done|].
  destruct (encode_utf8 _) as [bytes|]; [|done]. simpl. intros; simplify_eq. eauto.
Qed.

Lemma recorded_elem (R : pystr -> pystr -> Prop) (names hs : list pystr) :
  Forall2 R names hs ->
  forall (cur : gmap pystr json) n, n ∈ names ->
  exists h, recorded names hs cur !! n = Some (JStr h) /\ R n h.
Proof.
  induction 1 as [|m h names hs Hmh HR IH]; intros cur n Hn; [set_solver|].
  simpl. destruct (decide (n ∈ names)) as [Hin|Hnin]; [by apply IH|].
  assert (n = m) as -> by set_solver.
  rewrite recorded_lookup_other by done. rewrite lookup_insert_eq. eauto.
Qed.

Lemma changed_in_elem (R : pystr -> pystr -> Prop) (lh : json) (n : pystr)
    (names hs : list pystr) :
  Forall2 R names hs ->
  n ∈ names ->
  (forall h, R n h -> ne_str (prior_entry lh n) h = true) ->
  n ∈ changed_in lh names hs.
Proof.
  intros HR Hn Hne. induction HR as [|m h names hs Hmh _ IH]; [set_solver|].
  simpl. apply elem_of_app. apply elem_of_cons in Hn as [->|Hn].
  - left. rewrite (Hne h Hmh). apply list_elem_of_here.
  - right. by apply IH.
Qed.

Lemma run_digests_each (w : world) (st : state) (hs : list pystr) :
  run_digests w st = Some hs ->
  exists c, run_credentials w = Some c /\
    Forall2 (fun n h => exists k, hash_at w c (env_spreadsheet_id w) k n = Some h)
            (configured_names w) hs.
Proof.
  unfold run_digests. destruct (run_credentials w) as [c|]; [|done].
  intros H. exists c. split; [done|]. by eapply digests_each.
Qed.

(** C9: SOURCE_WORKSHEETS is split at the commas and nothing removes a
    repeated name.  In a run whose configuration, credentials and retrievals
    are in order, one retrieval is made for every listed occurrence, and a
    listed worksheet whose digest differs from its prior entry is in the
    change list as many times as SOURCE_WORKSHEETS lists it; that list is
    the one the card of the notification counts and itemises.  The run
    returns [True], unless the write of the new state fails. *)
Theorem duplicates_reported_per_occurrence (w : world) (st : state) (c : credentials)
    (source n h : pystr) :
  environ w (py "SOURCE_WORKSHEETS") = Some source ->
  reaches_save w st ->
  run_credentials w = Some c ->
  n ∈ map strip (split 44 source) ->
  (forall k, hash_at w c (env_spreadsheet_id w) k n = Some h) ->
  ne_str (prior_entry (loaded (hash_file st)) n) h = true ->
  exists ch st',
    main w st =
      (match json_dump w (JDict (run_hashes w st)) with
       | None => Normal true
       | Some _ => SysExit 1
       end, st') /\
    retrievals st' = (length (map strip (split 44 source)) + retrievals st)%nat /\
    occurrences n ch = occurrences n (map strip (split 44 source)) /\
    posted st' =
      posted st ++
      match add_hour (utcnow w (S (clock_reads st))) with
      | Some t => [(env_webhook w, card (strftime_wat t) ch (env_spreadsheet_id w))]
      | None => []
      end.
Proof.
  intros Hs Hr Hc Hin Hstable Hne.
  assert (Hnames : configured_names w = map strip (split 44 source)).
  { unfold configured_names. by rewrite Hs. }
  rewrite <- Hnames in *.
  pose proof Hr as (_ & _ & _ & _ & [hs Hd] & _).
  destruct (run_digests_each w st hs Hd) as (c' & Hc' & Heach).
  assert (c' = c) as -> by congruence.
  assert (Hocc : occurrences n (run_changed w st) = occurrences n (configured_names w)).
  { unfold run_changed. rewrite Hd. cbn [default from_option id].
    apply (changed_in_occurrences _ _ _ _ _ Heach).
    intros h' [k Hk]. rewrite Hstable in Hk. by simplify_eq. }
  assert (Hch : n ∈ run_changed w st).
  { unfold run_changed. rewrite Hd. cbn [default from_option id].
    apply (changed_in_elem _ _ _ _ _ Heach Hin).
    intros h' [k Hk]. rewrite Hstable in Hk. by simplify_eq. }
  destruct (main_saves w st Hr) as (st' & Hm & Hk & Hp).
  exists (run_changed w st), st'. split; [|split; [done|split; [done|]]].
  - rewrite Hm, bool_decide_eq_true_2; [done|].
    intros Hnil. rewrite Hnil in Hch. by apply not_elem_of_nil in Hch.
  - rewrite Hp. unfold run_requests.
    destruct (run_changed w st); [by apply not_elem_of_nil in Hch|done].
Qed.

Lemma duplicates_witness :
  exists ch st',
    main Demo.twice Demo.start = (Normal true, st') /\
    retrievals st' = 2%nat /\
    occurrences (py "Eggs") ch = 2%nat /\
    posted st' = [(py "https://chat.example/hook",
                   card (py "2024-05-17 10:30:01 WAT") ch (py "1AbC"))].
Proof.
  assert (Hr : reaches_save Demo.twice Demo.start).
  { unfold reaches_save. split; [reflexivity|]. split; [reflexivity|].
    split; [reflexivity|]. split; [reflexivity|]. split; [|exact I].
    eexists. vm_compute. reflexivity. }
  assert (Hin : py "Eggs" ∈ map strip (split 44 (py "Eggs,Eggs"))).
  { vm_compute. apply list_elem_of_here. }
  assert (Hstable : forall k,
            hash_at Demo.twice Demo.creds (env_spreadsheet_id Demo.twice) k (py "Eggs") =
            Some (py "4cdd39b35fab5b56d70b8aaa5590f71c")).
  { intros k. vm_compute. reflexivity. }
  destruct (duplicates_reported_per_occurrence Demo.twice Demo.start Demo.creds
              (py "Eggs,Eggs") (py "Eggs") (py "4cdd39b35fab5b56d70b8aaa5590f71c")
              eq_refl Hr eq_refl Hin Hstable eq_refl)
    as (ch & st' & Hm & Hk & Hocc & Hp).
  exists ch, st'. split; [|split; [|split]].
  - rewrite Hm. vm_compute. reflexivity.
  - rewrite Hk. vm_compute. reflexivity.
  - rewrite Hocc. vm_compute. reflexivity.
  - rewrite Hp. reflexivity.
Defined.

(** C10: a run that returns has stored its timestamp under 'last_checked'
    in the mapping that holds the digests of the configured worksheets, so
    that this entry is never one of the digests of the run; and the next
    run from that state, whatever its configuration, reports a worksheet
    named 'last_checked' as changed. *)
Theorem timestamp_key_collision (w : world) (st : state) (b : bool) (st1 : state) :
  main w st = (Normal b, st1) ->
  (exists m,
     hash_file st1 = Content (JDict m) /\
     m !! py "last_checked" = Some (JStr (isoformat (utcnow w (clock_reads st)))) /\
     (forall n, n ∈ configured_names w -> is_Some (m !! n)) /\
     (forall h, h ∈ default [] (run_digests w st) ->
                m !! py "last_checked" <> Some (JStr h))) /\
  (forall w2 b2 st2,
     py "last_checked" ∈ configured_names w2 ->
     main w2 st1 = (Normal b2, st2) ->
     b2 = true /\ py "last_checked" ∈ run_changed w2 st1).
Proof.
  intros Hm.
  apply main_inv in Hm as ((_ & _ & _ & _ & [hs Hd] & _) & _ & _ & Hf & _).
  destruct (run_digests_each w st hs Hd) as (c & Hc & Heach).
  split.
  - exists (run_hashes w st). split; [done|]. unfold run_hashes. rewrite Hd. cbn [default from_option id].
    split; [apply lookup_insert_eq|]. split.
    + intros n Hn. destruct (decide (py "last_checked" = n)) as [<-|Hne].
      * rewrite lookup_insert_eq. eauto.
      * rewrite lookup_insert_ne by done.
        destruct (recorded_elem _ _ _ Heach ∅ n Hn) as (h & -> & _). eauto.
    + intros h Hh. rewrite lookup_insert_eq. intros Heq. simplify_eq.
      apply list_elem_of_lookup in Hh as [i Hi].
      destruct (Forall2_lookup_r _ _ _ _ _ Heach Hi) as (n & _ & k & Hk).
      apply hash_at_hexdigest in Hk as [bytes Hb].
      by eapply isoformat_not_hexdigest.
  - intros w2 b2 st2 Hin Hm2.
    apply main_inv in Hm2 as ((_ & _ & _ & _ & [hs2 Hd2] & _) & _ & -> & _).
    destruct (run_digests_each w2 st1 hs2 Hd2) as (c2 & Hc2 & Heach2).
    assert (Hch : py "last_checked" ∈ run_changed w2 st1).
    { unfold run_changed. rewrite Hd2. cbn [default from_option id].
      apply (changed_in_elem _ _ _ _ _ Heach2 Hin).
      intros h [k Hk]. apply hash_at_hexdigest in Hk as [bytes ->].
      rewrite Hf. cbn [loaded prior_entry]. unfold run_hashes.
      rewrite lookup_insert_eq. simpl. apply negb_true_iff, bool_decide_eq_false.
      apply isoformat_not_hexdigest. }
    split; [|done]. apply bool_decide_eq_true. intros Hnil. rewrite Hnil in Hch.
    by apply not_elem_of_nil in Hch.
Qed.

Lemma timestamp_key_collision_witness :
  exists m,
    hash_file (main Demo.reserved Demo.start).2 = Content (JDict m) /\
    m !! py "last_checked" = Some (JStr (py "2024-05-17T09:30:00")).
Proof.
  destruct (timestamp_key_collision Demo.reserved Demo.start true
              (main Demo.reserved Demo.start).2) as [(m & Hf & Hm & _) _].
  - vm_compute. reflexivity.
  - exists m. split; [exact Hf|]. rewrite Hm. vm_compute. reflexivity.
Defined.

(** The digest at position [i] is that of retrieval [i + k]. *)
Lemma digests_lookup (w : world) (c : credentials) (sid : pystr) (names : list pystr) :
  forall k hs i n, digests w c sid k names = Some hs ->
  names !! i = Some n ->
  exists h, hs !! i = Some h /\ hash_at w c sid (i + k) n = Some h.
Proof.
  induction names as [|m names IH]; intros k hs i n H Hi; simpl in H; [done|].
  destruct (hash_at w c sid k m) eqn:Hh; [|done].
  destruct (digests w c sid (S k) names) eqn:Hd; [|done].
  simplify_eq. destruct i as [|i]; simpl in *.
  - simplify_eq. eauto.
  - destruct (IH _ _ _ _ Hd Hi) as (h & Hl & Hk). exists h. split; [done|].
    by rewrite Nat.add_succ_r in Hk.
Qed.

(** The mapping keeps, for a name, the digest of its last occurrence. *)
Lemma recorded_last (names : list pystr) :
  forall (hs : list pystr) (cur : gmap pystr json) (i : nat) (n h : pystr),
  names !! i = Some n -> hs !! i = Some h ->
  (forall j, (i < j)%nat -> names !! j <> Some n) ->
  recorded names hs cur !! n = Some (JStr h).
Proof.
  induction names as [|m names IH]; intros hs cur i n h Hi Hh Hlast; [done|].
  destruct hs as [|h0 hs]; [done|]. destruct i as [|i]; simpl in *.
  - simplify_eq. rewrite recorded_lookup_other; [apply lookup_insert_eq|].
    intros Hin. apply list_elem_of_lookup in Hin as [j Hj].
    by apply (Hlast (S j)); [lia|].
  - apply (IH _ _ i); [done|done|]. intros j Hij. apply (Hlast (S j)). lia.
Qed.

(** What the state file holds after a run that returns: the timestamp; for
    every other configured name the digest of the retrieval this run made at
    the last place where SOURCE_WORKSHEETS lists the name; and nothing
    else. *)
Lemma saved_state_entries (w : world) (st : state) (b : bool) (st' : state) :
  main w st = (Normal b, st') ->
  exists c m,
    run_credentials w = Some c /\
    hash_file st' = Content (JDict m) /\
    m !! py "last_checked" = Some (JStr (isoformat (utcnow w (clock_reads st)))) /\
    (forall n i, n <> py "last_checked" ->
       configured_names w !! i = Some n ->
       (forall j, (i < j)%nat -> configured_names w !! j <> Some n) ->
       exists h, m !! n = Some (JStr h) /\
                 hash_at w c (env_spreadsheet_id w) (i + retrievals st) n = Some h) /\
    (forall n, n <> py "last_checked" -> n ∉ configured_names w -> m !! n = None).
Proof.
  intros Hm.
  apply main_inv in Hm as ((_ & _ & _ & _ & [hs Hd] & _) & _ & _ & Hf & _).
  destruct (run_credentials w) as [c|] eqn:Hc;
    [|unfold run_digests in Hd; by rewrite Hc in Hd].
  exists c, (run_hashes w st). split; [done|]. split; [done|].
  unfold run_hashes. rewrite Hd. cbn [default from_option id].
  unfold run_digests in Hd. rewrite Hc in Hd.
  split; [apply lookup_insert_eq|]. split.
  - intros n i Hne Hi Hlast. rewrite lookup_insert_ne by done.
    destruct (digests_lookup _ _ _ _ _ _ _ _ Hd Hi) as (h & Hh & Hk).
    exists h. split; [|done]. by eapply recorded_last.
  - intros n Hne Hn. rewrite lookup_insert_ne by done.
    by rewrite recorded_lookup_other.
Qed.

(** C2, at a worksheet named 'last_checked': the run computes the digest of
    the worksheet and saves the timestamp in its place. *)
Theorem reserved_name_digest_lost :
  exists st' m,
    configured_names Demo.reserved = [py "last_checked"] /\
    run_digests Demo.reserved Demo.start = Some [py "6a6682435726a23b896ba8605ad65fa5"] /\
    main Demo.reserved Demo.start = (Normal true, st') /\
    hash_file st' = Content (JDict m) /\
    m = {[ py "last_checked" := JStr (py "2024-05-17T09:30:00") ]}.
Proof.
  eexists _, _. split; [reflexivity|]. split; [vm_compute; reflexivity|].
  split; [vm_compute; reflexivity|]. split; vm_compute; reflexivity.
Qed.

(** ** Two runs in a row *)

Lemma filter_none {A} (f : A -> bool) (l : list A) :
  (forall x, x ∈ l -> f x = false) -> List.filter f l = [].
Proof.
  induction l as [|x l IH]; intros H; simpl; [done|].
  rewrite H by apply list_elem_of_here. apply IH. intros y Hy. apply H. by right.
Qed.

(** Digests that do not depend on the retrieval are those of retrieval 0. *)
Lemma digests_unchanged (w : world) (c : credentials) (sid : pystr) (names : list pystr) :
  (forall k k' n, hash_at w c sid k n = hash_at w c sid k' n) ->
  forall k hs, digests w c sid k names = Some hs ->
  hs = map (fun n => default [] (hash_at w c sid 0 n)) names.
Proof.
  intros Hstable. induction names as [|n names IH]; intros k hs H; simpl in H.
  - by simplify_eq.
  - destruct (hash_at w c sid k n) as [h|] eqn:Hh; [|done].
    destruct (digests w c sid (S k) names) as [hs'|] eqn:Hd; [|done].
    simplify_eq. simpl. rewrite <- (Hstable k 0%nat n), Hh. simpl.
    f_equal. by eapply IH.
Qed.

(** Idempotence, away from the timestamp key: after a run that returns, a
    second run of the same configuration on unchanged worksheets, none of
    them named 'last_checked', finds no change and requests no notification. *)
Lemma second_run_quiet (w : world) (st : state) (b : bool) (st1 : state) :
  main w st = (Normal b, st1) ->
  py "last_checked" ∉ configured_names w ->
  (forall c k k' n, hash_at w c (env_spreadsheet_id w) k n
                    = hash_at w c (env_spreadsheet_id w) k' n) ->
  run_changed w st1 = [] /\
  forall b2 st2, main w st1 = (Normal b2, st2) ->
    b2 = false /\ posted st2 = posted st1.
Proof.
  intros Hm Hres Hstable.
  apply main_inv in Hm as ((_ & _ & _ & _ & [hs Hd] & _) & _ & _ & Hf & _).
  assert (Hquiet : run_changed w st1 = []).
  { unfold run_changed. rewrite Hf. cbn [loaded].
    unfold run_hashes. rewrite Hd. cbn [default from_option id].
    unfold run_digests in *. destruct (run_credentials w) as [c|]; [|done].
    apply (digests_unchanged _ _ _ _ (Hstable c)) in Hd. subst hs.
    destruct (digests w c (env_spreadsheet_id w) (retrievals st1) (configured_names w))
      as [hs2|] eqn:Hd2; cbn [default from_option id].
    2:{ by destruct (configured_names w). }
    apply (digests_unchanged _ _ _ _ (Hstable c)) in Hd2. subst hs2.
    rewrite changed_in_stable. apply filter_none. intros n Hn.
    cbn [prior_entry].
    rewrite lookup_insert_ne by (intros <-; done).
    rewrite recorded_stable by done. simpl.
    apply negb_false_iff, bool_decide_eq_true. done. }
  split; [done|]. intros b2 st2 Hm2.
  apply main_inv in Hm2 as (_ & _ & -> & _ & _ & ->).
  unfold run_requests. rewrite Hquiet. split; [done|]. by rewrite app_nil_r.
Qed.

Lemma second_run_quiet_example :
  exists st1 st2,
    main Demo.two_sheets Demo.start = (Normal true, st1) /\
    main Demo.two_sheets st1 = (Normal false, st2) /\
    posted st2 = posted st1.
Proof.
  exists (main Demo.two_sheets Demo.start).2,
         (main Demo.two_sheets (main Demo.two_sheets Demo.start).2).2.
  assert (H1 : main Demo.two_sheets Demo.start
               = (Normal true, (main Demo.two_sheets Demo.start).2))
    by (vm_compute; reflexivity).
  split; [exact H1|].
  destruct (second_run_quiet _ _ _ _ H1) as [_ H2].
  - vm_compute. intros H. apply list_elem_of_In in H. simpl in H.
    destruct H as [H|[H|[]]]; discriminate H.
  - intros c k k' n. reflexivity.
  - assert (H3 : main Demo.two_sheets (main Demo.two_sheets Demo.start).2
                 = (Normal false, (main Demo.two_sheets (main Demo.two_sheets Demo.start).2).2))
      by (vm_compute; reflexivity).
    split; [exact H3|]. by apply (H2 _ _ H3).
Defined.

(** C8, at a worksheet named 'last_checked' whose content never changes:
    the first run reports it and saves the state; the second run reports
    it again and requests a second notification. *)
Theorem reserved_name_reported_again :
  (forall k k' n, get_all_values Demo.reserved k Demo.creds (py "1AbC") n
                  = get_all_values Demo.reserved k' Demo.creds (py "1AbC") n) /\
  exists st1 st2,
    main Demo.reserved Demo.start = (Normal true, st1) /\
    hash_file st1 =
      Content (JDict {[ py "last_checked" := JStr (py "2024-05-17T09:30:00") ]}) /\
    main Demo.reserved st1 = (Normal true, st2) /\
    run_changed Demo.reserved st1 = [py "last_checked"] /\
    length (posted st1) = 1%nat /\ length (posted st2) = 2%nat.
Proof.
  split; [reflexivity|].
  exists (main Demo.reserved Demo.start).2,
         (main Demo.reserved (main Demo.reserved Demo.start).2).2.
  split; [vm_compute; reflexivity|]. split; [vm_compute; reflexivity|].
  split; [vm_compute; reflexivity|]. split; [vm_compute; reflexivity|].
  split; vm_compute; reflexivity.
Qed.

(** ** The fingerprint *)

Lemma add32_ok (x y : Z) : word_ok (MD5.add32 x y).
Proof. unfold word_ok, MD5.add32. change (2 ^ 32) with 4294967296. apply Z.mod_pos_bound. lia. Qed.

Lemma compress_ok (ws : MD5.words) (block : list Z) : words_ok (MD5.compress ws block).
Proof. unfold MD5.compress, words_ok. cbn [MD5.wA MD5.wB MD5.wC MD5.wD]. repeat split; apply add32_ok. Qed.

Lemma blocks_ok (n : nat) : forall bytes ws, words_ok ws -> words_ok (MD5.blocks n bytes ws).
Proof.
  induction n as [|n IH]; intros bytes ws H; simpl; [done|].
  apply IH, compress_ok.
Qed.

(** The MD5 state is four 32-bit words, whatever the message. *)
Lemma state_ok (msg : list Z) : words_ok (MD5.state msg).
Proof.
  unfold MD5.state. apply blocks_ok. unfold words_ok, word_ok, MD5.init.
  cbn [MD5.wA MD5.wB MD5.wC MD5.wD]. lia.
Qed.

Lemma words_code_bound (ws : MD5.words) :
  words_ok ws -> 0 <= words_code ws < 2 ^ 128.
Proof.
  unfold words_ok, word_ok, words_code. destruct ws as [a b c d].
  cbn [MD5.wA MD5.wB MD5.wC MD5.wD]. change (2 ^ 128) with 340282366920938463463374607431768211456.
  lia.
Qed.

Lemma words_code_inj (ws1 ws2 : MD5.words) :
  words_ok ws1 -> words_ok ws2 -> words_code ws1 = words_code ws2 -> ws1 = ws2.
Proof.
  unfold words_ok, word_ok, words_code. destruct ws1 as [a b c d], ws2 as [a' b' c' d'].
  cbn [MD5.wA MD5.wB MD5.wC MD5.wD]. intros H1 H2 H.
  assert (a = a') by lia. assert (b = b') by lia. assert (c = c') by lia.
  assert (d = d') by lia. congruence.
Qed.

(** More messages than states: two of the first 2^128 + 1 messages of any
    family have the same MD5 state. *)
Lemma md5_state_collision (msg : nat -> list Z) :
  exists i j : nat, (i < j)%nat /\ MD5.state (msg i) = MD5.state (msg j).
Proof.
  destruct (nat_pigeonhole (fun i => Z.to_nat (words_code (MD5.state (msg i))))
              (S (Z.to_nat (2 ^ 128))) (Z.to_nat (2 ^ 128)))
    as (i & j & [Hij _] & Heq).
  - apply Nat.lt_succ_diag_r.
  - intros i _. pose proof (words_code_bound _ (state_ok (msg i))) as [H0 H1].
    apply Z2Nat.inj_lt; [done| |done]. apply Z.pow_nonneg. lia.
  - exists i, j. split; [done|].
    apply words_code_inj; [apply state_ok..|].
    apply Z2Nat.inj; [apply words_code_bound, state_ok..|done].
Qed.

Lemma has_char_letters (c : Z) (i : nat) : c <> 97 -> has_char c (letters i) = false.
Proof.
  intros Hc. unfold has_char, letters. induction i as [|i IH]; [done|].
  cbn [replicate existsb]. rewrite IH. by destruct (Z.eqb_spec c 97).
Qed.

Lemma repr_body_letters (P : Z -> bool) (i : nat) :
  repr_body P QUOTE (letters i) = letters i.
Proof.
  unfold repr_body, letters. induction i as [|i IH]; [done|].
  cbn [replicate map concat]. by rewrite IH.
Qed.

(** [str(all_values)] for the one-cell grid of [i] letters. *)
Lemma str_values_letters (P : Z -> bool) (i : nat) :
  str_values P [[letters i]] = py "[['" ++ letters i ++ py "']]".
Proof.
  unfold str_values, str_list, list_tail, repr_str, repr_quote.
  rewrite !has_char_letters by done. cbn [andb negb].
  rewrite repr_body_letters. simpl. by rewrite <- !app_assoc.
Qed.

Lemma encode_utf8_ascii (s : pystr) :
  Forall (fun c => c < 128) s -> encode_utf8 s = Some s.
Proof.
  induction 1 as [|c s Hc _ IH]; simpl; [done|].
  rewrite IH. unfold utf8_char. by destruct (Z.ltb_spec c 128); [|lia].
Qed.

Lemma serialise_letters (w : world) (i : nat) :
  serialise w [[letters i]] = Some (py "[['" ++ letters i ++ py "']]").
Proof.
  unfold serialise. rewrite str_values_letters. apply encode_utf8_ascii.
  rewrite !Forall_app. split; [|split].
  - repeat constructor.
  - unfold letters. apply Forall_replicate. lia.
  - repeat constructor.
Qed.

Lemma letters_inj (i j : nat) : letters i = letters j -> i = j.
Proof. intros H. apply (f_equal length) in H. unfold letters in H. by rewrite !length_replicate in H. Qed.

(** C4, as stated, fails: the digest has 128 bits, so two grids that differ
    in the text of their only cell have the same digest, in a retrieval of
    any world. *)
Lemma digest_collision :
  exists g1 g2 : list (list pystr),
    differ_in_a_cell g1 g2 /\
    forall w sid name c st1 st2,
      get_all_values w (retrievals st1) c sid name = inr g1 ->
      get_all_values w (retrievals st2) c sid name = inr g2 ->
      exists h, (get_worksheet_hash w sid name c st1).1 = Normal h /\
                (get_worksheet_hash w sid name c st2).1 = Normal h.
Proof.
  destruct (md5_state_collision (fun i => py "[['" ++ letters i ++ py "']]"))
    as (i & j & Hij & Hst).
  cbv beta in Hst.
  exists [[letters i]], [[letters j]]. split.
  - exists 0%nat, 0%nat, (letters i), (letters j). repeat split.
    intros H%letters_inj. lia.
  - intros w sid name c st1 st2 H1 H2.
    exists (MD5.hexdigest (py "[['" ++ letters i ++ py "']]")).
    split.
    + erewrite get_worksheet_hash_ok; [done|].
      unfold hash_at, content_hash. rewrite H1.
      fold (serialise w [[letters i]]). by rewrite serialise_letters.
    + erewrite get_worksheet_hash_ok; [done|].
      unfold hash_at, content_hash. rewrite H2.
      fold (serialise w [[letters j]]). rewrite serialise_letters.
      change (Some (MD5.hexdigest (py "[['" ++ letters j ++ py "']]")) =
              Some (MD5.hexdigest (py "[['" ++ letters i ++ py "']]"))).
      unfold MD5.hexdigest, MD5.digest. by rewrite Hst.
Qed.

(** ** The serialisation is injective *)

Lemma hex_digit_inj (a b : Z) :
  0 <= a < 16 -> 0 <= b < 16 -> hex_digit a = hex_digit b -> a = b.
Proof.
  unfold hex_digit. intros Ha Hb.
  destruct (Z.ltb_spec a 10), (Z.ltb_spec b 10); lia.
Qed.

Lemma length_hex_fixed (n : nat) : forall x, length (hex_fixed n x) = n.
Proof.
  induction n as [|n IH]; intros x; simpl; [done|].
  rewrite length_app, IH. simpl. lia.
Qed.

Lemma hex_fixed_inj (n : nat) : forall x y,
  0 <= x < 16 ^ Z.of_nat n -> 0 <= y < 16 ^ Z.of_nat n ->
  hex_fixed n x = hex_fixed n y -> x = y.
Proof.
  induction n as [|n IH]; intros x y Hx Hy H.
  - change (16 ^ Z.of_nat 0) with 1 in *. lia.
  - rewrite Nat2Z.inj_succ, Z.pow_succ_r in Hx, Hy by lia.
    simpl in H. apply app_inj_tail in H as [H1 H2].
    apply IH in H1; [|Z.div_mod_to_equations; lia..].
    apply hex_digit_inj in H2; [|apply Z.mod_pos_bound; lia..].
    rewrite (Z.div_mod x 16), (Z.div_mod y 16) by lia. congruence.
Qed.

(** Fixed-width digits followed by anything determine the number. *)
Lemma hex_fixed_prefix (n : nat) (x y : Z) (r1 r2 : pystr) :
  0 <= x < 16 ^ Z.of_nat n -> 0 <= y < 16 ^ Z.of_nat n ->
  hex_fixed n x ++ r1 = hex_fixed n y ++ r2 -> x = y /\ r1 = r2.
Proof.
  intros Hx Hy H. apply app_inj_1 in H as [H1 H2].
  - split; [by eapply hex_fixed_inj|done].
  - by rewrite !length_hex_fixed.
Qed.

Lemma repr_quote_is_quote (s : pystr) : is_quote (repr_quote s).
Proof. unfold repr_quote, is_quote. destruct (_ && _); auto. Qed.

Ltac to_arith :=
  repeat match goal with
  | H : (_ || _) = true |- _ => apply orb_true_iff in H
  | H : (_ || _) = false |- _ => apply orb_false_iff in H as [? ?]
  | H : (_ =? _) = true |- _ => apply Z.eqb_eq in H
  | H : (_ =? _) = false |- _ => apply Z.eqb_neq in H
  | H : (_ <? _) = true |- _ => apply Z.ltb_lt in H
  | H : (_ <? _) = false |- _ => apply Z.ltb_ge in H
  | H : (_ <=? _) = true |- _ => apply Z.leb_le in H
  | H : (_ <=? _) = false |- _ => apply Z.leb_gt in H
  end.

(** The shapes of [repr_char]: a two-character escape, a hexadecimal
    escape of 2, 4 or 8 digits, or the character itself. *)
Lemma repr_char_cases (P : Z -> bool) (q c : Z) :
  is_codepoint c ->
  (repr_char P q c = [BACKSLASH; c] /\ (c = q \/ c = BACKSLASH))
  \/ (repr_char P q c = [BACKSLASH; 116] /\ c = 9)
  \/ (repr_char P q c = [BACKSLASH; 110] /\ c = 10)
  \/ (repr_char P q c = [BACKSLASH; 114] /\ c = 13)
  \/ (repr_char P q c = BACKSLASH :: 120 :: hex_fixed 2 c /\ c < 256)
  \/ (repr_char P q c = BACKSLASH :: 117 :: hex_fixed 4 c /\ 256 <= c < 65536)
  \/ (repr_char P q c = BACKSLASH :: 85 :: hex_fixed 8 c /\ 65536 <= c)
  \/ (repr_char P q c = [c] /\ c <> q /\ c <> BACKSLASH /\ 32 <= c).
Proof.
  intros Hc. unfold repr_char, is_codepoint, BACKSLASH in *.
  destruct ((c =? q) || (c =? 92)) eqn:E1; to_arith.
  { left. split; [done|]. destruct E1; to_arith; auto. }
  destruct (c =? 9) eqn:E2; to_arith; [subst; right; by left|].
  destruct (c =? 10) eqn:E3; to_arith; [subst; do 2 right; by left|].
  destruct (c =? 13) eqn:E4; to_arith; [subst; do 3 right; by left|].
  destruct ((c <? 32) || (c =? 127)) eqn:E5; to_arith.
  { do 4 right. left. split; [done|lia]. }
  destruct (c <? 127) eqn:E6; to_arith.
  { do 7 right. repeat split; [done..|lia]. }
  destruct (P c).
  { do 7 right. repeat split; [done..|lia]. }
  destruct (c <=? 255) eqn:E7; to_arith.
  { do 4 right. left. split; [done|lia]. }
  destruct (c <=? 65535) eqn:E8; to_arith.
  { do 5 right. left. split; [done|lia]. }
  do 6 right. left. split; [done|lia].
Qed.

(** No character of a [repr] starts like the closing quote. *)
Lemma repr_char_head (P : Z -> bool) (q c : Z) :
  is_quote q -> is_codepoint c ->
  exists x t, repr_char P q c = x :: t /\ x <> q.
Proof.
  intros Hq Hc. unfold is_quote, QUOTE, DQUOTE in Hq.
  destruct (repr_char_cases P q c Hc)
    as [[-> ?]|[[-> ?]|[[-> ?]|[[-> ?]|[[-> ?]|[[-> ?]|[[-> ?]|[-> ?]]]]]]]];
    eexists _, _; (split; [reflexivity|]); unfold BACKSLASH; lia.
Qed.

Lemma cons_eq_inv {A} (x y : A) (l l' : list A) : x :: l = y :: l' -> x = y /\ l = l'.
Proof. intros H. by injection H. Qed.

(** A character of a [repr], followed by anything, determines the
    character. *)
Lemma repr_char_prefix (P : Z -> bool) (q c1 c2 : Z) (r1 r2 : pystr) :
  is_quote q -> is_codepoint c1 -> is_codepoint c2 ->
  repr_char P q c1 ++ r1 = repr_char P q c2 ++ r2 -> c1 = c2 /\ r1 = r2.
Proof.
  intros Hq H1 H2. unfold is_quote, QUOTE, DQUOTE in Hq.
  pose proof H1 as B1. pose proof H2 as B2. unfold is_codepoint in B1, B2.
  destruct (repr_char_cases P q c1 H1)
    as [[-> ?]|[[-> ?]|[[-> ?]|[[-> ?]|[[-> ?]|[[-> ?]|[[-> ?]|[-> ?]]]]]]]];
  destruct (repr_char_cases P q c2 H2)
    as [[-> ?]|[[-> ?]|[[-> ?]|[[-> ?]|[[-> ?]|[[-> ?]|[[-> ?]|[-> ?]]]]]]]];
  unfold BACKSLASH in *; cbn [app]; intros Heq;
  repeat match goal with
  | H : _ :: _ = _ :: _ |- _ => apply cons_eq_inv in H as [? H]
  end;
  first
    [ lia
    | split; [lia|assumption]
    | match goal with
      | H : hex_fixed _ _ ++ _ = hex_fixed _ _ ++ _ |- _ =>
          apply hex_fixed_prefix in H; [exact H| |];
          (split; [lia|]); (eapply Z.lt_le_trans; [|by apply Z.eq_le_incl; vm_compute]); lia
      end ].
Qed.

Lemma repr_body_prefix (P : Z -> bool) (q : Z) (s1 : pystr) :
  is_quote q -> forall s2 r1 r2,
  Forall is_codepoint s1 -> Forall is_codepoint s2 ->
  repr_body P q s1 ++ q :: r1 = repr_body P q s2 ++ q :: r2 ->
  s1 = s2 /\ r1 = r2.
Proof.
  intros Hq. unfold repr_body.
  induction s1 as [|c1 s1 IH]; intros [|c2 s2] r1 r2 V1 V2 H; cbn [map concat app] in H.
  - apply cons_eq_inv in H as [_ H]. done.
  - apply Forall_cons in V2 as [V2 _].
    destruct (repr_char_head P q c2 Hq V2) as (x & t & Hx & Hne).
    rewrite Hx in H. cbn [app] in H. apply cons_eq_inv in H as [? _]. congruence.
  - apply Forall_cons in V1 as [V1 _].
    destruct (repr_char_head P q c1 Hq V1) as (x & t & Hx & Hne).
    rewrite Hx in H. cbn [app] in H. apply cons_eq_inv in H as [? _]. congruence.
  - apply Forall_cons in V1 as [V1 V1'], V2 as [V2 V2'].
    rewrite <- !app_assoc in H.
    apply repr_char_prefix in H as [-> H]; [|done..].
    apply IH in H as [-> ->]; done.
Qed.

(** The [repr] of a string, followed by anything, determines the string. *)
Lemma repr_str_prefix (P : Z -> bool) (s1 s2 r1 r2 : pystr) :
  valid_text s1 -> valid_text s2 ->
  repr_str P s1 ++ r1 = repr_str P s2 ++ r2 -> s1 = s2 /\ r1 = r2.
Proof.
  unfold repr_str, valid_text. intros V1 V2 H. cbn [app] in H.
  apply cons_eq_inv in H as [Hq H]. rewrite <- Hq in H.
  rewrite <- !app_assoc in H. cbn [app] in H.
  by apply repr_body_prefix in H; [|apply repr_quote_is_quote|..].
Qed.

Lemma repr_str_head (P : Z -> bool) (s : pystr) :
  exists x t, repr_str P s = x :: t /\ x <> 93.
Proof.
  unfold repr_str. eexists _, _. split; [reflexivity|].
  destruct (repr_quote_is_quote s) as [-> | ->]; done.
Qed.

Section list_display.
Context {A : Type} (f : A -> pystr) (V : A -> Prop).
Hypothesis f_prefix : forall x y r r',
  V x -> V y -> f x ++ r = f y ++ r' -> x = y /\ r = r'.
Hypothesis f_head : forall x, V x -> exists h t, f x = h :: t /\ h <> 93.

Lemma list_tail_prefix (l : list A) : forall l' r r',
  Forall V l -> Forall V l' ->
  list_tail f l ++ r = list_tail f l' ++ r' -> l = l' /\ r = r'.
Proof using f_prefix.
  induction l as [|x l IH]; intros [|y l'] r r' Vl Vl' H; cbn [list_tail py app] in H.
  - apply cons_eq_inv in H as [_ H]. done.
  - apply cons_eq_inv in H as [? _]. done.
  - apply cons_eq_inv in H as [? _]. done.
  - apply Forall_cons in Vl as [Vx Vl], Vl' as [Vy Vl'].
    apply cons_eq_inv in H as [_ H]. apply cons_eq_inv in H as [_ H].
    rewrite <- !app_assoc in H.
    apply f_prefix in H as [-> H]; [|done..].
    apply IH in H as [-> ->]; done.
Qed.

(** The display of a list, followed by anything, determines the list. *)
Lemma str_list_prefix (l l' : list A) (r r' : pystr) :
  Forall V l -> Forall V l' ->
  str_list f l ++ r = str_list f l' ++ r' -> l = l' /\ r = r'.
Proof using f_prefix f_head.
  intros Vl Vl' H. destruct l as [|x l], l' as [|y l']; cbn [str_list py app] in H.
  - apply cons_eq_inv in H as [_ H]. apply cons_eq_inv in H as [_ H]. done.
  - apply Forall_cons in Vl' as [Vy _]. destruct (f_head y Vy) as (h & t & Hy & Hne).
    rewrite Hy in H. cbn [app] in H.
    apply cons_eq_inv in H as [_ H]. apply cons_eq_inv in H as [Hh _].
    exfalso. apply Hne. first [by rewrite <- Hh|by rewrite Hh].
  - apply Forall_cons in Vl as [Vx _]. destruct (f_head x Vx) as (h & t & Hx & Hne).
    rewrite Hx in H. cbn [app] in H.
    apply cons_eq_inv in H as [_ H]. apply cons_eq_inv in H as [Hh _].
    exfalso. apply Hne. first [by rewrite <- Hh|by rewrite Hh].
  - apply Forall_cons in Vl as [Vx Vl], Vl' as [Vy Vl'].
    apply cons_eq_inv in H as [_ H]. rewrite <- !app_assoc in H.
    apply f_prefix in H as [-> H]; [|done..].
    apply list_tail_prefix in H as [-> ->]; done.
Qed.

Lemma str_list_head (l : list A) : exists h t, str_list f l = h :: t /\ h <> 93.
Proof using Type. destruct l; eexists _, _; (split; [reflexivity|done]). Qed.
End list_display.

(** [str(all_values)] determines the grid. *)
Lemma str_values_inj (P : Z -> bool) (g1 g2 : list (list pystr)) :
  valid_values g1 -> valid_values g2 ->
  str_values P g1 = str_values P g2 -> g1 = g2.
Proof.
  intros V1 V2 H. unfold str_values in H.
  assert (H' : str_list (str_list (repr_str P)) g1 ++ []
               = str_list (str_list (repr_str P)) g2 ++ []) by (by rewrite !app_nil_r).
  apply (str_list_prefix _ (Forall valid_text)) in H' as [? _]; [done| | |done..].
  - intros x y r r' Vx Vy. apply (str_list_prefix _ valid_text); [|intros; apply repr_str_head|done..].
    intros a b ra rb. apply repr_str_prefix.
  - intros x _. apply str_list_head.
Qed.

(** *** UTF-8 *)

Lemma forall_below (n : nat) (p : Z -> bool) :
  forallb p (map Z.of_nat (seq 0 n)) = true ->
  forall y, 0 <= y < Z.of_nat n -> p y = true.
Proof.
  intros H y Hy. rewrite forallb_forall in H. apply H.
  apply in_map_iff. exists (Z.to_nat y). split; [lia|].
  apply in_seq. lia.
Qed.

Lemma lor_continuation (y : Z) : 0 <= y < 64 -> Z.lor 128 y = 128 + y.
Proof.
  intros Hy. apply Z.eqb_eq.
  apply (forall_below 64 (fun y => Z.lor 128 y =? 128 + y)); [by vm_compute|lia].
Qed.

Lemma lor_lead2 (y : Z) : 0 <= y < 32 -> Z.lor 192 y = 192 + y.
Proof.
  intros Hy. apply Z.eqb_eq.
  apply (forall_below 32 (fun y => Z.lor 192 y =? 192 + y)); [by vm_compute|lia].
Qed.

Lemma lor_lead3 (y : Z) : 0 <= y < 16 -> Z.lor 224 y = 224 + y.
Proof.
  intros Hy. apply Z.eqb_eq.
  apply (forall_below 16 (fun y => Z.lor 224 y =? 224 + y)); [by vm_compute|lia].
Qed.

Lemma lor_lead4 (y : Z) : 0 <= y < 8 -> Z.lor 240 y = 240 + y.
Proof.
  intros Hy. apply Z.eqb_eq.
  apply (forall_below 8 (fun y => Z.lor 240 y =? 240 + y)); [by vm_compute|lia].
Qed.

Lemma land_63 (x : Z) : Z.land x 63 = x mod 64.
Proof. change 63 with (Z.ones 6). rewrite Z.land_ones by lia. reflexivity. Qed.

(** The bytes of a code point, in arithmetic. *)
Lemma utf8_char_arith (c : Z) :
  is_codepoint c ->
  utf8_char c =
    if c <? 128 then Some [c]
    else if c <? 2048 then Some [192 + c / 64; 128 + c mod 64]
    else if c <? 65536 then
      if is_surrogate c then None
      else Some [224 + c / 4096; 128 + (c / 64) mod 64; 128 + c mod 64]
    else Some [240 + c / 262144; 128 + (c / 4096) mod 64; 128 + (c / 64) mod 64;
               128 + c mod 64].
Proof.
  unfold is_codepoint, utf8_char. intros Hc.
  rewrite !land_63, !Z.shiftr_div_pow2 by lia.
  change (2 ^ 6) with 64. change (2 ^ 12) with 4096. change (2 ^ 18) with 262144.
  rewrite !(lor_continuation (_ mod 64)) by (apply Z.mod_pos_bound; lia).
  destruct (Z.ltb_spec c 128); [done|].
  destruct (Z.ltb_spec c 2048).
  { rewrite lor_lead2 by (Z.div_mod_to_equations; lia). done. }
  destruct (Z.ltb_spec c 65536).
  { rewrite lor_lead3 by (Z.div_mod_to_equations; lia). done. }
  rewrite lor_lead4 by (Z.div_mod_to_equations; lia). done.
Qed.

(** The bytes of a code point, followed by anything, determine it. *)
Lemma utf8_char_prefix (c1 c2 : Z) (b1 b2 r1 r2 : list Z) :
  is_codepoint c1 -> is_codepoint c2 ->
  utf8_char c1 = Some b1 -> utf8_char c2 = Some b2 ->
  b1 ++ r1 = b2 ++ r2 -> c1 = c2 /\ r1 = r2.
Proof.
  intros V1 V2. rewrite !utf8_char_arith by done. unfold is_codepoint in *.
  destruct (Z.ltb_spec c1 128) as [L1|L1]; [|destruct (Z.ltb_spec c1 2048) as [L2|L2];
    [|destruct (Z.ltb_spec c1 65536) as [L3|L3]; [destruct (is_surrogate c1); [done|]|]]];
  (destruct (Z.ltb_spec c2 128) as [M1|M1]; [|destruct (Z.ltb_spec c2 2048) as [M2|M2];
    [|destruct (Z.ltb_spec c2 65536) as [M3|M3];
      [destruct (is_surrogate c2); [intros; done|]|]]]);
  intros E1 E2 Heq; simplify_eq;
  first [ (split; [|first [assumption|reflexivity]]); Z.div_mod_to_equations; lia
        | exfalso; Z.div_mod_to_equations; lia ].
Qed.

Lemma utf8_char_nonempty (c : Z) (b : list Z) : utf8_char c = Some b -> b <> [].
Proof.
  unfold utf8_char. intros H Hb. subst b.
  repeat (destruct (_ <? _) in H; try discriminate H).
  by destruct (is_surrogate c).
Qed.

Lemma encode_utf8_inj (s1 : pystr) : forall s2 b,
  Forall is_codepoint s1 -> Forall is_codepoint s2 ->
  encode_utf8 s1 = Some b -> encode_utf8 s2 = Some b -> s1 = s2.
Proof.
  induction s1 as [|c1 s1 IH]; intros [|c2 s2] b V1 V2 H1 H2; simpl in H1, H2.
  - done.
  - simplify_eq. destruct (utf8_char c2) as [b2|] eqn:E2; [|done].
    destruct (encode_utf8 s2); [|done]. simplify_eq.
    apply utf8_char_nonempty in E2. by destruct b2.
  - simplify_eq. destruct (utf8_char c1) as [b1|] eqn:E1; [|done].
    destruct (encode_utf8 s1); [|done]. simplify_eq.
    apply utf8_char_nonempty in E1. by destruct b1.
  - apply Forall_cons in V1 as [V1 V1'], V2 as [V2 V2'].
    destruct (utf8_char c1) as [b1|] eqn:E1; [|done].
    destruct (encode_utf8 s1) as [bs1|] eqn:Es1; [|done].
    destruct (utf8_char c2) as [b2|] eqn:E2; [|done].
    destruct (encode_utf8 s2) as [bs2|] eqn:Es2; [|done].
    injection H1 as <-. injection H2 as H2. symmetry in H2.
    destruct (utf8_char_prefix c1 c2 b1 b2 bs1 bs2 V1 V2 E1 E2 H2) as [-> ->].
    f_equal. by eapply IH.
Qed.

(** *** The characters of [str(all_values)] *)

Lemma is_hex_codepoint (c : Z) : is_hex c -> is_codepoint c.
Proof. unfold is_hex, is_codepoint. lia. Qed.

Lemma hex_fixed_codepoints (n : nat) (x : Z) : Forall is_codepoint (hex_fixed n x).
Proof. eapply Forall_impl; [apply hex_fixed_is_hex|apply is_hex_codepoint]. Qed.

Lemma repr_char_codepoints (P : Z -> bool) (q c : Z) :
  is_codepoint c -> Forall is_codepoint (repr_char P q c).
Proof.
  intros Hc.
  destruct (repr_char_cases P q c Hc)
    as [[-> ?]|[[-> ?]|[[-> ?]|[[-> ?]|[[-> ?]|[[-> ?]|[[-> ?]|[-> ?]]]]]]]];
    repeat first [apply hex_fixed_codepoints|apply Forall_nil|apply Forall_cons; split];
    unfold is_codepoint, BACKSLASH in *; lia.
Qed.

Lemma repr_body_codepoints (P : Z -> bool) (q : Z) (s : pystr) :
  valid_text s -> Forall is_codepoint (repr_body P q s).
Proof.
  unfold repr_body. induction 1 as [|c s Hc _ IH]; cbn [map concat]; [constructor|].
  apply Forall_app. split; [by apply repr_char_codepoints|done].
Qed.

Lemma repr_str_codepoints (P : Z -> bool) (s : pystr) :
  valid_text s -> Forall is_codepoint (repr_str P s).
Proof.
  intros Hs. unfold repr_str.
  assert (Hq : is_codepoint (repr_quote s)).
  { destruct (repr_quote_is_quote s) as [-> | ->]; unfold is_codepoint, QUOTE, DQUOTE; lia. }
  apply Forall_cons. split; [done|]. apply Forall_app.
  split; [by apply repr_body_codepoints|constructor; [done|constructor]].
Qed.

Lemma py_codepoints (s : string) : Forall is_codepoint (py s).
Proof.
  induction s as [|a s IH]; simpl; constructor; [|done].
  unfold is_codepoint. pose proof (N_ascii_bounded a). lia.
Qed.

Lemma str_list_codepoints {A} (f : A -> pystr) (V : A -> Prop) (l : list A) :
  (forall x, V x -> Forall is_codepoint (f x)) ->
  Forall V l -> Forall is_codepoint (str_list f l).
Proof.
  intros Hf Hl. destruct Hl as [|x l Hx Hl]; cbn [str_list]; [apply py_codepoints|].
  apply Forall_app. split; [apply py_codepoints|]. apply Forall_app. split; [by apply Hf|].
  induction Hl as [|y l Hy _ IH]; cbn [list_tail]; [apply py_codepoints|].
  apply Forall_app. split; [apply py_codepoints|]. apply Forall_app. split; [by apply Hf|done].
Qed.

Lemma str_values_codepoints (P : Z -> bool) (g : list (list pystr)) :
  valid_values g -> Forall is_codepoint (str_values P g).
Proof.
  intros Hg. apply (str_list_codepoints _ (Forall valid_text)); [|done].
  intros row Hrow. apply (str_list_codepoints _ valid_text); [|done].
  intros s Hs. by apply repr_str_codepoints.
Qed.

(** The bytes that are hashed determine the grid of cell texts. *)
Lemma serialise_inj (w : world) (g1 g2 : list (list pystr)) (b : list Z) :
  valid_values g1 -> valid_values g2 ->
  serialise w g1 = Some b -> serialise w g2 = Some b -> g1 = g2.
Proof.
  intros V1 V2 H1 H2. unfold serialise in *.
  apply (str_values_inj (isprintable w)); [done..|].
  eapply encode_utf8_inj; [| |exact H1|exact H2]; by apply str_values_codepoints.
Qed.

(** C4, as the code has it: two grids of cell texts that differ are hashed
    from different byte strings, the UTF-8 encodings of their [str], and
    [get_worksheet_hash] returns the MD5 digests of these: the digests
    differ unless MD5 collides on the two byte strings. *)
Theorem fingerprint_sensitive_up_to_md5 (w : world) (sid name : pystr) (c : credentials)
    (st1 st2 : state) (g1 g2 : list (list pystr)) (b1 b2 : list Z) :
  valid_values g1 -> valid_values g2 ->
  g1 <> g2 ->
  get_all_values w (retrievals st1) c sid name = inr g1 ->
  get_all_values w (retrievals st2) c sid name = inr g2 ->
  serialise w g1 = Some b1 ->
  serialise w g2 = Some b2 ->
  b1 <> b2 /\
  (get_worksheet_hash w sid name c st1).1 = Normal (MD5.hexdigest b1) /\
  (get_worksheet_hash w sid name c st2).1 = Normal (MD5.hexdigest b2).
Proof.
  intros V1 V2 Hne Hg1 Hg2 Hb1 Hb2. split.
  - intros ->. apply Hne. by eapply serialise_inj.
  - split.
    + erewrite get_worksheet_hash_ok; [done|].
      unfold hash_at, content_hash. rewrite Hg1. fold (serialise w g1). by rewrite Hb1.
    + erewrite get_worksheet_hash_ok; [done|].
      unfold hash_at, content_hash. rewrite Hg2. fold (serialise w g2). by rewrite Hb2.
Qed.

Lemma valid_values_check (g : list (list pystr)) :
  valid_valuesb g = true -> valid_values g.
Proof.
  unfold valid_valuesb, valid_values, valid_text. rewrite forallb_forall.
  intros H. apply Forall_forall. intros row Hrow%list_elem_of_In.
  apply H in Hrow. rewrite forallb_forall in Hrow.
  apply Forall_forall. intros s Hs%list_elem_of_In.
  apply Hrow in Hs. rewrite forallb_forall in Hs.
  apply Forall_forall. intros c Hc%list_elem_of_In.
  apply Hs in Hc. unfold is_codepointb in Hc. unfold is_codepoint. lia.
Qed.

Lemma fingerprint_sensitive_witness :
  py "[['Eggs', '12']]" <> py "[['Eggs', '13']]" /\
  (get_worksheet_hash Demo.edited (py "1AbC") (py "Eggs") Demo.creds Demo.start).1
    = Normal (py "4cdd39b35fab5b56d70b8aaa5590f71c") /\
  (get_worksheet_hash Demo.edited (py "1AbC") (py "Eggs") Demo.creds
     (retrieved 1 Demo.start)).1
    = Normal (py "27c12332fcbae608e9c7d7721bbd94f4").
Proof.
  apply (fingerprint_sensitive_up_to_md5 Demo.edited (py "1AbC") (py "Eggs") Demo.creds
           Demo.start (retrieved 1 Demo.start)
           [[py "Eggs"; py "12"]] [[py "Eggs"; py "13"]]
           (py "[['Eggs', '12']]") (py "[['Eggs', '13']]")).
  - by apply valid_values_check.
  - by apply valid_values_check.
  - intros H. discriminate H.
  - reflexivity.
  - reflexivity.
  - vm_compute. reflexivity.
  - vm_compute. reflexivity.
Defined.

(** ** Runs that fail *)

Lemma untouched_refl (st : state) : untouched st st.
Proof. by repeat split. Qed.

Lemma untouched_printed (lines : list pystr) (st st' : state) :
  untouched st st' -> untouched st (printed lines st').
Proof. by intros (? & ? & ?). Qed.

Lemma untouched_retrieved (n : nat) (st st' : state) :
  untouched st st' -> untouched st (retrieved n st').
Proof. by intros (? & ? & ?). Qed.

Lemma untouched_trans (st1 st2 st3 : state) :
  untouched st1 st2 -> untouched st2 st3 -> untouched st1 st3.
Proof. unfold untouched. intros (? & ? & ?) (? & ? & ?). repeat split; congruence. Qed.

(** [get_credentials], whole: the credentials of the library, or the line of
    the failure and [sys.exit(1)]. *)
Lemma get_credentials_run (w : world) (st : state) :
  get_credentials w st =
    match credentials_error w, run_credentials w with
    | Some line, _ => (SysExit 1, printed [line] st)
    | None, Some c => (Normal c, printed [py "Authentication successful"] st)
    | None, None => (SysExit 1, st)
    end.
Proof.
  unfold get_credentials, credentials_error, run_credentials.
  destruct (unset (environ w (py "GOOGLE_SERVICE_ACCOUNT"))) eqn:Hset.
  { rewrite bind_run, print_run. reflexivity. }
  unfold try_except. rewrite bind_run.
  destruct (json_loads w _) as [e|info]; cbn [call raise mret M_ret].
  { by destruct e. }
  rewrite bind_run.
  destruct (from_service_account_info w info SCOPES) as [e|c]; cbn [call raise mret M_ret].
  { by destruct e. }
  reflexivity.
Qed.

Lemma credentials_error_None (w : world) :
  credentials_error w = None -> is_Some (run_credentials w).
Proof.
  unfold credentials_error, run_credentials.
  destruct (unset _); [done|].
  destruct (json_loads w _) as [e|info]; [done|].
  destruct (from_service_account_info w info SCOPES); [done|eauto].
Qed.

(** [get_worksheet_hash], whole: one retrieval, then the digest, or the line
    of the failure and [sys.exit(1)]. *)
Lemma get_worksheet_hash_run (w : world) (sid name : pystr) (c : credentials) (st : state) :
  get_worksheet_hash w sid name c st =
    match retrieval_exn w c sid (retrievals st) name with
    | Some e => (SysExit 1, printed [retrieval_line e] (retrieved 1 st))
    | None => (Normal (default [] (hash_at w c sid (retrievals st) name)), retrieved 1 st)
    end.
Proof.
  unfold get_worksheet_hash, retrieval_exn, hash_at, content_hash, try_except.
  rewrite bind_run. unfold worksheet_get_all_values.
  destruct (get_all_values w (retrievals st) c sid name) as [e|values].
  - by destruct e.
  - unfold encode. destruct (encode_utf8 _) as [bytes|]; [reflexivity|].
    rewrite bind_run. unfold raise. by destruct (encode_error w _).
Qed.

(** The loop leaves the state file, the requests and the clock alone,
    however it ends. *)
Lemma check_worksheets_keeps (w : world) (sid : pystr) (c : credentials) (lh : json)
    (names : list pystr) :
  forall (cur : gmap pystr json) (ch : list pystr) (st : state) o st',
  check_worksheets w sid c lh names cur ch st = (o, st') -> untouched st st'.
Proof.
  induction names as [|n names IH]; intros cur ch st o st' H; cbn [check_worksheets] in H.
  - unfold mret, M_ret in H. simplify_eq. apply untouched_refl.
  - rewrite bind_run, get_worksheet_hash_run in H.
    destruct (retrieval_exn w c sid (retrievals st) n).
    { simplify_eq. apply untouched_printed, untouched_retrieved, untouched_refl. }
    rewrite bind_run in H.
    destruct lh; cbn [dict_get raise mret M_ret] in H;
      try (simplify_eq; apply untouched_retrieved, untouched_refl).
    apply IH in H. eapply untouched_trans; [|exact H].
    apply untouched_retrieved, untouched_refl.
Qed.

Lemma configured_names_nonempty (w : world) : configured_names w <> [].
Proof.
  unfold configured_names. intros Hnil. apply map_eq_nil in Hnil.
  by apply split_nonempty in Hnil.
Qed.

(** [main] up to the loop: with the configuration set and the credentials
    accepted, the run is the loop from the loaded state, then the rest. *)
Lemma main_to_loop (w : world) (st : state) (c : credentials) :
  config_error w = None ->
  credentials_error w = None ->
  run_credentials w = Some c ->
  exists rest : gmap pystr json * list pystr -> M bool,
    main w st =
      match (check_worksheets w (env_spreadsheet_id w) c (loaded (hash_file st))
               (configured_names w) ∅ [] ≫= rest)
              (printed (preamble w st) st) with
      | (Raise e, st') =>
          (SysExit 1, printed [py "ERROR: Unexpected failure - " ++ exn_str e] st')
      | r => r
      end.
Proof.
  unfold config_error. intros Hcfg Hce Hc.
  destruct (unset (environ w (py "SPREADSHEET_ID"))) eqn:E1; [done|].
  destruct (unset (environ w (py "SOURCE_WORKSHEETS"))) eqn:E2; [done|].
  destruct (unset (environ w (py "GOOGLE_CHAT_WEBHOOK"))) eqn:E3; [done|].
  eexists. unfold main, try_except. rewrite bind_run, print_run, E1, E2, E3.
  rewrite bind_run, print_run, bind_run, get_credentials_run, Hce, Hc.
  rewrite bind_run, load_last_hashes_run.
  cbn [hash_file printed].
  fold (configured_names w). fold (env_spreadsheet_id w). fold (env_webhook w).
  fold (monitoring_line w).
  unfold printed at 1 2 3 4. cbn [stdout hash_file retrievals clock_reads posted].
  rewrite <- !app_assoc. cbn [app].
  unfold preamble, printed. cbn [app].
  reflexivity.
Qed.

Lemma main_exits_on_config (w : world) (st : state) (line : pystr) :
  config_error w = Some line ->
  main w st = (SysExit 1, printed [py "Starting change detection..."; line] st).
Proof.
  unfold config_error, main, try_except. intros H. rewrite bind_run, print_run.
  assert (Hexit : forall msg : pystr,
            (print msg ≫= fun _ => sys_exit (A:=bool) 1)
              (printed [py "Starting change detection..."] st)
            = (SysExit 1, printed [py "Starting change detection..."; msg] st)).
  { intros msg. rewrite bind_run, print_run. unfold sys_exit, printed.
    cbn [stdout hash_file retrievals clock_reads posted]. by rewrite <- app_assoc. }
  destruct (unset (environ w (py "SPREADSHEET_ID"))); [simplify_eq; by rewrite Hexit|].
  destruct (unset (environ w (py "SOURCE_WORKSHEETS"))); [simplify_eq; by rewrite Hexit|].
  destruct (unset (environ w (py "GOOGLE_CHAT_WEBHOOK"))); [simplify_eq; by rewrite Hexit|done].
Qed.

(** A missing or empty SPREADSHEET_ID, SOURCE_WORKSHEETS or
    GOOGLE_CHAT_WEBHOOK ends the run in [sys.exit(1)] right after the first
    line, with the line of the first one missing in that order; nothing is
    retrieved, read, requested or written. *)
Theorem config_error_is_fatal (w : world) (st : state) (line : pystr) :
  config_error w = Some line ->
  main w st = (SysExit 1, printed [py "Starting change detection..."; line] st) /\
  untouched st (main w st).2 /\ retrievals (main w st).2 = retrievals st.
Proof.
  intros H. rewrite (main_exits_on_config w st line H). by repeat split.
Qed.

Lemma config_error_witness :
  main Faulty.half_configured Demo.start =
    (SysExit 1, printed [py "Starting change detection...";
                         py "ERROR: SOURCE_WORKSHEETS not set"] Demo.start).
Proof. apply (config_error_is_fatal Faulty.half_configured Demo.start). reflexivity. Defined.

Lemma main_exits_on_credentials (w : world) (st : state) (line : pystr) :
  credentials_error w = Some line ->
  config_error w = None ->
  main w st = (SysExit 1, printed [py "Starting change detection..."; monitoring_line w; line] st).
Proof.
  intros Hce. unfold config_error. intros Hcfg.
  destruct (unset (environ w (py "SPREADSHEET_ID"))) eqn:E1; [done|].
  destruct (unset (environ w (py "SOURCE_WORKSHEETS"))) eqn:E2; [done|].
  destruct (unset (environ w (py "GOOGLE_CHAT_WEBHOOK"))) eqn:E3; [done|].
  unfold main, try_except. rewrite bind_run, print_run, E1, E2, E3.
  rewrite bind_run, print_run, bind_run, get_credentials_run, Hce.
  fold (configured_names w). fold (monitoring_line w).
  unfold printed. cbn [stdout hash_file retrievals clock_reads posted].
  by rewrite <- !app_assoc.
Qed.

(** When the service account is missing, is not JSON or is refused,
    [get_credentials] prints the line of that failure and ends in
    [sys.exit(1)]; in [main] this happens after the configuration is checked
    and before the state file is read or any worksheet retrieved. *)
Theorem credentials_error_is_fatal (w : world) (st : state) (line : pystr) :
  credentials_error w = Some line ->
  get_credentials w st = (SysExit 1, printed [line] st) /\
  (config_error w = None ->
   main w st = (SysExit 1, printed [py "Starting change detection..."; monitoring_line w; line] st)).
Proof.
  intros Hce. split; [by rewrite get_credentials_run, Hce|].
  by apply main_exits_on_credentials.
Qed.

Lemma credentials_error_witness :
  main Faulty.bad_account Demo.start =
    (SysExit 1, printed [py "Starting change detection...";
                         py "Monitoring 2 worksheet(s)";
                         py "ERROR: Invalid service account JSON format"] Demo.start).
Proof.
  apply (credentials_error_is_fatal Faulty.bad_account Demo.start
           (py "ERROR: Invalid service account JSON format")); reflexivity.
Defined.

(** A failing retrieval, or content that cannot be encoded, ends
    [get_worksheet_hash] in [sys.exit(1)] after one retrieval, with
    'Worksheet not found' for that exception and the message of any other. *)
Theorem worksheet_hash_failure (w : world) (sid name : pystr) (c : credentials)
    (st : state) (e : exn) :
  retrieval_exn w c sid (retrievals st) name = Some e ->
  get_worksheet_hash w sid name c st =
    (SysExit 1, printed [retrieval_line e] (retrieved 1 st)).
Proof. intros H. by rewrite get_worksheet_hash_run, H. Qed.

Lemma worksheet_hash_failure_witness :
  get_worksheet_hash Faulty.missing_sheet (py "1AbC") (py "Shipments") Demo.creds Demo.start =
    (SysExit 1, printed [py "ERROR: Worksheet not found"] (retrieved 1 Demo.start)).
Proof.
  apply (worksheet_hash_failure Faulty.missing_sheet (py "1AbC") (py "Shipments")
           Demo.creds Demo.start (WorksheetNotFound (py "Shipments"))).
  reflexivity.
Defined.

Lemma retrieval_exn_None (w : world) (c : credentials) (sid : pystr) (k : nat) (n : pystr) :
  retrieval_exn w c sid k n = None <-> is_Some (hash_at w c sid k n).
Proof.
  unfold retrieval_exn, hash_at, content_hash.
  destruct (get_all_values w k c sid n) as [e|values].
  - split; [done|by intros [? ?]].
  - destruct (encode_utf8 _); simpl; (split; [intros|]); eauto; try done; by intros [? ?].
Qed.

(** The loop stops at the first worksheet that fails: the worksheets after
    it are not retrieved. *)
Lemma check_worksheets_stops (w : world) (sid : pystr) (c : credentials)
    (last : gmap pystr json) (n : pystr) (names2 : list pystr) (e : exn)
    (names1 : list pystr) :
  forall hs (cur : gmap pystr json) (ch : list pystr) (st : state),
  digests w c sid (retrievals st) names1 = Some hs ->
  retrieval_exn w c sid (length names1 + retrievals st) n = Some e ->
  check_worksheets w sid c (JDict last) (names1 ++ n :: names2) cur ch st =
    (SysExit 1, printed [retrieval_line e] (retrieved (S (length names1)) st)).
Proof.
  induction names1 as [|m names1 IH]; intros hs cur ch st Hd He;
    cbn [app check_worksheets length]; rewrite bind_run, get_worksheet_hash_run.
  - cbn [length Nat.add] in He. by rewrite He.
  - cbn [digests] in Hd.
    destruct (hash_at w c sid (retrievals st) m) as [h|] eqn:Hh; [|done].
    destruct (digests w c sid (S (retrievals st)) names1) as [hs'|] eqn:Hd'; [|done].
    assert (Hnone : retrieval_exn w c sid (retrievals st) m = None)
      by (apply retrieval_exn_None; eauto).
    rewrite Hnone, bind_run. cbn [dict_get mret M_ret].
    erewrite IH; [|exact Hd'|].
    + by rewrite retrieved_S.
    + cbn [retrieved retrievals]. rewrite <- He. f_equal. cbn [length]. lia.
Qed.

(** A worksheet that cannot be retrieved or encoded ends the run in
    [sys.exit(1)] on the spot: the worksheets listed after it are not
    retrieved, the clock is not read, nothing is requested and the state
    file keeps its content. *)
Theorem retrieval_failure_stops_run (w : world) (st : state) (c : credentials)
    (names1 names2 : list pystr) (n : pystr) (hs : list pystr) (e : exn) :
  config_error w = None ->
  credentials_error w = None ->
  run_credentials w = Some c ->
  is_dict (loaded (hash_file st)) ->
  configured_names w = names1 ++ n :: names2 ->
  digests w c (env_spreadsheet_id w) (retrievals st) names1 = Some hs ->
  retrieval_exn w c (env_spreadsheet_id w) (length names1 + retrievals st) n = Some e ->
  main w st =
    (SysExit 1,
     State (stdout st ++ preamble w st ++ [retrieval_line e]) (hash_file st)
           (S (length names1) + retrievals st) (clock_reads st) (posted st)).
Proof.
  intros Hcfg Hce Hc Hdict Hnames Hd He.
  destruct (main_to_loop w st c Hcfg Hce Hc) as [rest ->].
  rewrite bind_run, Hnames.
  destruct (loaded (hash_file st)) as [| | | | | |last]; try done.
  erewrite check_worksheets_stops; [|exact Hd|exact He].
  unfold printed, retrieved. cbn [stdout hash_file retrievals clock_reads posted].
  by rewrite <- app_assoc.
Qed.

Lemma retrieval_failure_witness :
  main Faulty.missing_sheet Demo.start =
    (SysExit 1,
     State [py "Starting change detection..."; py "Monitoring 3 worksheet(s)";
            py "Authentication successful"; py "ERROR: Worksheet not found"]
           Absent 2 0 []).
Proof.
  apply (retrieval_failure_stops_run Faulty.missing_sheet Demo.start Demo.creds
           [py "Eggs"] [py "Feed"] (py "Shipments")
           [py "4cdd39b35fab5b56d70b8aaa5590f71c"]
           (WorksheetNotFound (py "Shipments")));
    first [exact I | vm_compute; reflexivity].
Defined.

(** A state file that parses to something other than a dictionary is not
    recovered from: once the first worksheet is retrieved, the lookup
    raises, [main] prints 'Unexpected failure' and ends in [sys.exit(1)],
    and the file keeps its content. *)
Theorem non_dict_state_is_fatal (w : world) (st : state) (c : credentials)
    (v : json) (n : pystr) (h : pystr) :
  config_error w = None ->
  credentials_error w = None ->
  run_credentials w = Some c ->
  hash_file st = Content v ->
  ~ is_dict v ->
  head (configured_names w) = Some n ->
  hash_at w c (env_spreadsheet_id w) (retrievals st) n = Some h ->
  main w st =
    (SysExit 1,
     State (stdout st ++ preamble w st
              ++ [py "ERROR: Unexpected failure - '" ++ type_name v
                    ++ py "' object has no attribute 'get'"])
           (hash_file st) (S (retrievals st)) (clock_reads st) (posted st)).
Proof.
  intros Hcfg Hce Hc Hf Hv Hn Hh.
  destruct (main_to_loop w st c Hcfg Hce Hc) as [rest ->].
  rewrite bind_run. destruct (configured_names w) as [|n' names]; [done|].
  cbn [head] in Hn. simplify_eq.
  cbn [check_worksheets]. rewrite bind_run, get_worksheet_hash_run.
  assert (Hnone : retrieval_exn w c (env_spreadsheet_id w) (retrievals st) n = None)
    by (apply retrieval_exn_None; eauto).
  cbn [printed retrievals]. rewrite Hnone, bind_run, Hf. cbn [loaded].
  destruct v; try (by destruct Hv); cbn [dict_get raise];
    unfold printed, retrieved; cbn [stdout hash_file retrievals clock_reads posted];
    rewrite <- app_assoc, ?Hf; reflexivity.
Qed.

Lemma non_dict_state_witness :
  main Demo.two_sheets Faulty.list_state =
    (SysExit 1,
     State [py "Starting change detection..."; py "Monitoring 2 worksheet(s)";
            py "Authentication successful";
            py "ERROR: Unexpected failure - 'list' object has no attribute 'get'"]
           (Content (JList [])) 1 0 []).
Proof.
  apply (non_dict_state_is_fatal Demo.two_sheets Faulty.list_state Demo.creds
           (JList []) (py "Eggs") (py "4cdd39b35fab5b56d70b8aaa5590f71c"));
    first [by intros [] | vm_compute; reflexivity].
Defined.

(** A run that does not get as far as saving the state ends in
    [sys.exit(1)] and has changed nothing: the state file and the list of
    requests are as before and the clock was not read. *)
Theorem failure_before_save_changes_nothing (w : world) (st : state)
    (o : outcome bool) (st' : state) :
  main w st = (o, st') ->
  ~ reaches_save w st ->
  o = SysExit 1 /\ untouched st st'.
Proof.
  intros Hm Hno.
  destruct (config_error w) as [line|] eqn:Hcfg.
  { rewrite (main_exits_on_config w st line Hcfg) in Hm. simplify_eq.
    split; [done|]. apply untouched_printed, untouched_refl. }
  destruct (credentials_error w) as [line|] eqn:Hce.
  { rewrite (main_exits_on_credentials w st line Hce Hcfg) in Hm. simplify_eq.
    split; [done|]. apply untouched_printed, untouched_refl. }
  destruct (credentials_error_None w Hce) as [c Hc].
  destruct (main_to_loop w st c Hcfg Hce Hc) as [rest Hmain].
  rewrite Hmain, bind_run in Hm.
  destruct (check_worksheets w (env_spreadsheet_id w) c (loaded (hash_file st))
              (configured_names w) ∅ [] (printed (preamble w st) st))
    as [[[cur ch]|e|code] st1] eqn:Hloop.
  - exfalso. apply Hno.
    apply check_worksheets_inv in Hloop as (hs & Hd & Hdict & _).
    unfold config_error in Hcfg. unfold credentials_error in Hce.
    destruct (unset (environ w (py "SPREADSHEET_ID"))) eqn:E1; [done|].
    destruct (unset (environ w (py "SOURCE_WORKSHEETS"))) eqn:E2; [done|].
    destruct (unset (environ w (py "GOOGLE_CHAT_WEBHOOK"))) eqn:E3; [done|].
    destruct (unset (environ w (py "GOOGLE_SERVICE_ACCOUNT"))) eqn:E4; [done|].
    unfold reaches_save. rewrite E1, E2, E3, E4. repeat split.
    + unfold run_digests. rewrite Hc. eauto.
    + apply Hdict, configured_names_nonempty.
  - apply check_worksheets_keeps in Hloop. simplify_eq. split; [done|].
    apply untouched_printed.
    eapply untouched_trans; [apply untouched_printed, untouched_refl|exact Hloop].
  - pose proof Hloop as Hkeep. apply check_worksheets_keeps in Hkeep. simplify_eq.
    destruct (check_worksheets_cases w (env_spreadsheet_id w) c (loaded (hash_file st))
                (configured_names w) ∅ [] (printed (preamble w st) st))
      as [(hs & _ & _ & Hrun)|(_ & st2 & [Hrun|[e Hrun]])];
      rewrite Hrun in Hloop; simplify_eq.
    split; [done|].
    eapply untouched_trans; [apply untouched_printed, untouched_refl|exact Hkeep].
Qed.

Lemma failure_before_save_witness :
  untouched Faulty.list_state (main Demo.two_sheets Faulty.list_state).2.
Proof.
  destruct (failure_before_save_changes_nothing Demo.two_sheets Faulty.list_state
              (main Demo.two_sheets Faulty.list_state).1
              (main Demo.two_sheets Faulty.list_state).2) as [_ H].
  - by destruct (main Demo.two_sheets Faulty.list_state).
  - intros (_ & _ & _ & _ & _ & Hd). exact Hd.
  - exact H.
Defined.

(** A run that returns has returned whether a worksheet changed, whatever
    the webhook answered: False goes with no request at all, True with one
    request, to the configured webhook, carrying the card of the changed
    worksheets. *)
Theorem result_and_request (w : world) (st : state) (b : bool) (st' : state) :
  main w st = (Normal b, st') ->
  (b = true <-> run_changed w st <> []) /\
  (b = false -> posted st' = posted st) /\
  (b = true -> forall t, add_hour (utcnow w (S (clock_reads st))) = Some t ->
     posted st' = posted st ++ [(env_webhook w,
                                 card (strftime_wat t) (run_changed w st)
                                      (env_spreadsheet_id w))]).
Proof.
  intros Hm. apply main_inv in Hm as (_ & _ & -> & _ & _ & ->).
  unfold run_requests, request. destruct (run_changed w st) as [|n ch] eqn:Hch.
  - rewrite bool_decide_eq_false_2 by (intros H; by apply H).
    split; [split; [done|intros H; by destruct H]|].
    split; [intros _; by rewrite app_nil_r|done].
  - rewrite bool_decide_eq_true_2 by done.
    split; [done|]. split; [done|]. intros _ t Ht. by rewrite Ht.
Qed.

Lemma result_and_request_witness :
  posted (main Demo.no_content Demo.start).2 =
    [(py "https://chat.example/hook",
      card (py "2024-05-17 10:30:01 WAT") [py "Eggs"] (py "1AbC"))].
Proof.
  assert (Hm : main Demo.no_content Demo.start
               = (Normal true, (main Demo.no_content Demo.start).2))
    by (vm_compute; reflexivity).
  destruct (result_and_request _ _ _ _ Hm) as (_ & _ & H).
  rewrite (H eq_refl (DateTime 2024 5 17 10 30 1 0) eq_refl).
  vm_compute. reflexivity.
Defined.

(** No removal detection: the loop looks up the prior state at the
    requested names only, so two prior states that agree on them give the
    same run, whatever other entries they hold. *)
Theorem stale_entries_ignored (w : world) (sid : pystr) (c : credentials)
    (last1 last2 : gmap pystr json) (names : list pystr) :
  (forall n, n ∈ names -> last1 !! n = last2 !! n) ->
  forall (cur : gmap pystr json) (ch : list pystr) (st : state),
  check_worksheets w sid c (JDict last1) names cur ch st =
  check_worksheets w sid c (JDict last2) names cur ch st.
Proof.
  induction names as [|n names IH]; intros Hagree cur ch st; [done|].
  cbn [check_worksheets]. rewrite !bind_run.
  destruct (get_worksheet_hash w sid n c st) as [[h|e|code] st1]; [|done..].
  rewrite !bind_run. cbn [dict_get mret M_ret].
  rewrite (Hagree n) by apply list_elem_of_here.
  apply IH. intros m Hm. apply Hagree. by right.
Qed.

Lemma stale_entries_witness :
  check_worksheets Demo.two_sheets (py "1AbC") Demo.creds
    (JDict {[ py "Feed" := JStr (py "00000000000000000000000000000000") ]})
    [py "Eggs"; py "Shipments"] ∅ [] Demo.start =
  check_worksheets Demo.two_sheets (py "1AbC") Demo.creds (JDict ∅)
    [py "Eggs"; py "Shipments"] ∅ [] Demo.start.
Proof.
  apply stale_entries_ignored. intros n Hn. apply list_elem_of_In in Hn.
  destruct Hn as [<-|[<-|[]]]; reflexivity.
Defined.

(** ** The digest and the encoding *)

Lemma hexdigest_length (msg : list Z) : length (MD5.hexdigest msg) = 32%nat.
Proof. reflexivity. Qed.

(** Whenever [get_worksheet_hash] returns, it returns 32 lower-case
    hexadecimal digits, after exactly one retrieval and nothing else. *)
Theorem worksheet_hash_format (w : world) (sid name : pystr) (c : credentials)
    (st : state) (h : pystr) (st' : state) :
  get_worksheet_hash w sid name c st = (Normal h, st') ->
  length h = 32%nat /\ Forall is_hex h /\ st' = retrieved 1 st.
Proof.
  intros H. apply get_worksheet_hash_inv in H as [Hh ->].
  apply hash_at_hexdigest in Hh as [bytes ->].
  split; [apply hexdigest_length|]. split; [apply hexdigest_is_hex|done].
Qed.

Lemma worksheet_hash_format_witness :
  length (py "4cdd39b35fab5b56d70b8aaa5590f71c") = 32%nat /\
  Forall is_hex (py "4cdd39b35fab5b56d70b8aaa5590f71c") /\
  retrieved 1 Demo.start = retrieved 1 Demo.start.
Proof.
  apply (worksheet_hash_format Demo.two_sheets (py "1AbC") (py "Eggs") Demo.creds Demo.start).
  vm_compute. reflexivity.
Defined.

Lemma utf8_char_Some (c : Z) : is_surrogate c = false -> is_Some (utf8_char c).
Proof.
  intros Hc. unfold utf8_char. rewrite Hc.
  repeat (destruct (_ <? _); [eauto|]). eauto.
Qed.

Lemma encode_utf8_Some (s : pystr) :
  Forall (fun c => is_surrogate c = false) s -> is_Some (encode_utf8 s).
Proof.
  induction 1 as [|c s Hc _ [bs IH]]; cbn [encode_utf8]; [eauto|].
  destruct (utf8_char_Some c Hc) as [b ->]. rewrite IH. eauto.
Qed.

Lemma is_hex_not_surrogate (c : Z) : is_hex c -> is_surrogate c = false.
Proof. unfold is_hex, is_surrogate. intros H. apply andb_false_iff. left. lia. Qed.

Lemma below_not_surrogate (c : Z) : c < 0xD800 -> is_surrogate c = false.
Proof. unfold is_surrogate. intros H. apply andb_false_iff. left. lia. Qed.

Lemma hex_fixed_no_surrogate (n : nat) (x : Z) :
  Forall (fun c => is_surrogate c = false) (hex_fixed n x).
Proof. eapply Forall_impl; [apply hex_fixed_is_hex|apply is_hex_not_surrogate]. Qed.

(** [repr] escapes every character that is not printable, surrogates among
    them. *)
Lemma repr_char_no_surrogate (P : Z -> bool) (q c : Z) :
  (forall x, is_surrogate x = true -> P x = false) ->
  is_quote q ->
  Forall (fun x => is_surrogate x = false) (repr_char P q c).
Proof.
  intros HP Hq. unfold is_quote, QUOTE, DQUOTE in Hq. unfold repr_char, BACKSLASH.
  assert (Hlit : forall x, x < 0xD800 -> Forall (fun y => is_surrogate y = false) [x]).
  { intros x Hx. constructor; [by apply below_not_surrogate|constructor]. }
  assert (Hesc : forall (a b : Z) n, a < 0xD800 -> b < 0xD800 ->
            Forall (fun y => is_surrogate y = false) (a :: b :: hex_fixed n c)).
  { intros a b n Ha Hb. constructor; [by apply below_not_surrogate|].
    constructor; [by apply below_not_surrogate|apply hex_fixed_no_surrogate]. }
  destruct ((c =? q) || (c =? 92)) eqn:E1; to_arith.
  { constructor; [by apply below_not_surrogate|]. apply Hlit.
    destruct E1 as [E|E]; to_arith; lia. }
  destruct (c =? 9); [apply (Hesc 92 116 0%nat); lia|].
  destruct (c =? 10); [apply (Hesc 92 110 0%nat); lia|].
  destruct (c =? 13); [apply (Hesc 92 114 0%nat); lia|].
  destruct ((c <? 32) || (c =? 127)); [apply (Hesc 92 120 2%nat); lia|].
  destruct (c <? 127) eqn:E6; to_arith; [apply Hlit; lia|].
  destruct (P c) eqn:EP.
  { constructor; [|constructor]. destruct (is_surrogate c) eqn:Es; [|done].
    rewrite (HP c Es) in EP. done. }
  destruct (c <=? 255); [apply (Hesc 92 120 2%nat); lia|].
  destruct (c <=? 65535); [apply (Hesc 92 117 4%nat); lia|].
  apply (Hesc 92 85 8%nat); lia.
Qed.

Lemma repr_str_no_surrogate (P : Z -> bool) (s : pystr) :
  (forall x, is_surrogate x = true -> P x = false) ->
  Forall (fun x => is_surrogate x = false) (repr_str P s).
Proof.
  intros HP. unfold repr_str, repr_body.
  pose proof (repr_quote_is_quote s) as Hq.
  assert (Hqs : is_surrogate (repr_quote s) = false).
  { apply below_not_surrogate. destruct Hq as [-> | ->]; unfold QUOTE, DQUOTE; lia. }
  revert Hq Hqs. generalize (repr_quote s). intros q Hq Hqs.
  constructor; [done|]. apply Forall_app. split; [|constructor; [done|constructor]].
  induction s as [|c s IH]; cbn [map concat]; [constructor|].
  apply Forall_app. split; [by apply repr_char_no_surrogate|done].
Qed.

Lemma py_no_surrogate (s : string) : Forall (fun x => is_surrogate x = false) (py s).
Proof.
  induction s as [|a s IH]; simpl; constructor; [|done].
  apply below_not_surrogate. pose proof (N_ascii_bounded a). lia.
Qed.

Lemma str_list_no_surrogate {A} (f : A -> pystr) (l : list A) :
  (forall x, Forall (fun c => is_surrogate c = false) (f x)) ->
  Forall (fun c => is_surrogate c = false) (str_list f l).
Proof.
  intros Hf. destruct l as [|x l]; cbn [str_list]; [apply py_no_surrogate|].
  apply Forall_app. split; [apply py_no_surrogate|]. apply Forall_app. split; [apply Hf|].
  induction l as [|y l IH]; cbn [list_tail]; [apply py_no_surrogate|].
  apply Forall_app. split; [apply py_no_surrogate|]. apply Forall_app. split; [apply Hf|done].
Qed.

(** As long as no surrogate counts as printable, [str(all_values)] can be
    encoded whatever the cells hold (lone surrogates included: [repr]
    escapes them), so a retrieval that returns values always gives a
    digest. *)
Theorem hashing_never_fails (w : world) (sid name : pystr) (c : credentials)
    (st : state) (all_values : list (list pystr)) :
  surrogates_unprintable w ->
  get_all_values w (retrievals st) c sid name = inr all_values ->
  exists bytes,
    encode_utf8 (str_values (isprintable w) all_values) = Some bytes /\
    get_worksheet_hash w sid name c st = (Normal (MD5.hexdigest bytes), retrieved 1 st).
Proof.
  intros HP Hg.
  destruct (encode_utf8_Some (str_values (isprintable w) all_values)) as [bytes Hb].
  { apply str_list_no_surrogate. intros row. apply str_list_no_surrogate.
    intros s. by apply repr_str_no_surrogate. }
  exists bytes. split; [done|].
  apply get_worksheet_hash_ok. unfold hash_at, content_hash. by rewrite Hg, Hb.
Qed.

Lemma hashing_never_fails_witness :
  exists bytes,
    encode_utf8 (str_values (isprintable Demo.two_sheets) [[py "Eggs"; [0xD83D; 0x1F95A]]])
      = Some bytes /\
    get_worksheet_hash
      (Demo.make (py "Eggs") (fun _ _ => inr [[py "Eggs"; [0xD83D; 0x1F95A]]])
                 (inr 200) (fun _ => None))
      (py "1AbC") (py "Eggs") Demo.creds Demo.start
    = (Normal (MD5.hexdigest bytes), retrieved 1 Demo.start).
Proof.
  apply (hashing_never_fails
           (Demo.make (py "Eggs") (fun _ _ => inr [[py "Eggs"; [0xD83D; 0x1F95A]]])
                      (inr 200) (fun _ => None))).
  - intros x Hx. cbn [isprintable Demo.make]. by rewrite Hx, andb_false_r.
  - reflexivity.
Defined.

(** ** The worksheet names *)

Lemma split_length (sep : Z) (s : pystr) :
  length (split sep s) = S (count_occ Z.eq_dec s sep).
Proof.
  induction s as [|c s IH]; [done|]. cbn [split count_occ].
  destruct (Z.eqb_spec c sep) as [->|Hne].
  - destruct (Z.eq_dec sep sep); [|done]. cbn [length]. by rewrite IH.
  - destruct (Z.eq_dec c sep); [done|].
    destruct (split sep s) as [|h t]; [done|]. exact IH.
Qed.

Lemma split_no_sep (sep : Z) (s : pystr) : Forall (fun p => sep ∉ p) (split sep s).
Proof.
  induction s as [|c s IH]; cbn [split].
  - constructor; [apply not_elem_of_nil|constructor].
  - destruct (Z.eqb_spec c sep) as [->|Hne].
    + constructor; [apply not_elem_of_nil|done].
    + destruct (split sep s) as [|h t].
      * constructor; [|constructor]. intros [?|?%not_elem_of_nil]%elem_of_cons; congruence.
      * apply Forall_cons in IH as [Hh Ht]. constructor; [|done].
        intros [?|?]%elem_of_cons; [congruence|done].
Qed.

Lemma join_split (sep : Z) (s : pystr) : join [sep] (split sep s) = s.
Proof.
  induction s as [|c s IH]; [done|]. cbn [split].
  pose proof (split_nonempty sep s) as Hne.
  destruct (Z.eqb_spec c sep) as [->|_]; destruct (split sep s) as [|h t]; try done.
  - change (join [sep] ([] :: h :: t)) with ([] ++ [sep] ++ join [sep] (h :: t)).
    by rewrite IH.
  - destruct t as [|h' t].
    + cbn [join] in *. by rewrite IH.
    + change (join [sep] ((c :: h) :: h' :: t))
        with (c :: (h ++ [sep] ++ join [sep] (h' :: t))).
      change (join [sep] (h :: h' :: t)) with (h ++ [sep] ++ join [sep] (h' :: t)) in IH.
      by rewrite IH.
Qed.

Lemma lstrip_suffix (s : pystr) : exists pre, s = pre ++ lstrip s.
Proof.
  induction s as [|c s [pre IH]]; [by exists []|]. cbn [lstrip].
  destruct (isspace c); [|by exists []].
  exists (c :: pre). cbn [app]. by rewrite <- IH.
Qed.

Lemma lstrip_head (s : pystr) (c : Z) : head (lstrip s) = Some c -> isspace c = false.
Proof.
  induction s as [|x s IH]; [done|]. cbn [lstrip].
  destruct (isspace x) eqn:Hx; [done|]. cbn [head]. by intros [= <-].
Qed.

Lemma rstrip_prefix (s : pystr) : exists suf, s = rstrip s ++ suf.
Proof.
  unfold rstrip. destruct (lstrip_suffix (rev s)) as [pre Hpre].
  exists (rev pre). rewrite <- rev_app_distr, <- Hpre. by rewrite rev_involutive.
Qed.

Lemma rstrip_last (s : pystr) (c : Z) : last (rstrip s) = Some c -> isspace c = false.
Proof.
  unfold rstrip. intros [l' Hl]%last_Some. apply (lstrip_head (rev s) c).
  apply (f_equal (@rev Z)) in Hl. rewrite rev_involutive, rev_app_distr in Hl.
  by rewrite Hl.
Qed.

(** A stripped name neither starts nor ends with white space, and holds
    only characters of the piece it comes from. *)
Lemma strip_shape (s : pystr) :
  (forall c, head (strip s) = Some c -> isspace c = false) /\
  (forall c, last (strip s) = Some c -> isspace c = false) /\
  (forall c, c ∈ strip s -> c ∈ s).
Proof.
  unfold strip. destruct (rstrip_prefix (lstrip s)) as [suf Hsuf].
  destruct (lstrip_suffix s) as [pre Hpre].
  split; [|split].
  - intros c Hc. apply (lstrip_head s c). rewrite Hsuf.
    destruct (rstrip (lstrip s)); [done|]. exact Hc.
  - apply rstrip_last.
  - intros c Hc. rewrite Hpre, Hsuf, !elem_of_app. auto.
Qed.

(** The names [main] monitors, for any SOURCE_WORKSHEETS: one name for each
    comma plus one, duplicates and empty names included; no name holds a
    comma or starts or ends with white space; and the pieces before
    stripping, joined by commas, are the variable again. *)
Theorem worksheet_names_shape (w : world) :
  let source := default [] (environ w (py "SOURCE_WORKSHEETS")) in
  length (configured_names w) = S (count_occ Z.eq_dec source 44) /\
  Forall (fun n => (44 ∉ n) /\
                   (forall c, head n = Some c -> isspace c = false) /\
                   (forall c, last n = Some c -> isspace c = false))
         (configured_names w) /\
  join [44] (split 44 source) = source.
Proof.
  cbv zeta. unfold configured_names. split; [|split].
  - by rewrite length_map, split_length.
  - apply Forall_map. eapply Forall_impl; [apply split_no_sep|].
    intros p Hp. cbv beta. destruct (strip_shape p) as (Hh & Hl & Hin).
    split; [|done]. intros Hc. by apply Hp, Hin.
  - apply join_split.
Qed.

(** ** The notifier, whole *)

(** The notifier always returns, after one reading of the clock, one line
    of log and one request (none when the displayed time overflows), with
    no retry; True only for an answer 200; the state file is not touched. *)
Theorem notifier_single_attempt (w : world) (url : pystr) (changed : list pystr)
    (sid : pystr) (st : state) :
  exists line,
    send_google_chat_card w url changed sid st =
      (Normal match add_hour (utcnow w (clock_reads st)) with
              | Some t =>
                  match requests_post w url (card (strftime_wat t) changed sid) with
                  | inr code => code =? 200
                  | inl _ => false
                  end
              | None => false
              end,
       State (stdout st ++ [line]) (hash_file st) (retrievals st) (S (clock_reads st))
             (posted st ++ request url changed sid (utcnow w (clock_reads st)))).
Proof.
  unfold send_google_chat_card, try_except, request.
  rewrite bind_run. unfold datetime_utcnow. rewrite bind_run.
  destruct (add_hour (utcnow w (clock_reads st))) as [t|]; cbn [mret M_ret raise].
  - rewrite bind_run. unfold post. cbn [stdout hash_file retrievals clock_reads posted].
    destruct (requests_post w url _) as [e|code].
    + eexists. reflexivity.
    + destruct (code =? 200); eexists; reflexivity.
  - eexists. rewrite app_nil_r. reflexivity.
Qed.

(** ** Witnesses of the state file lemmas *)

Lemma saved_state_witness :
  exists m,
    hash_file (main Demo.twice Faulty.stale_state).2 = Content (JDict m) /\
    m !! py "Eggs" = Some (JStr (py "4cdd39b35fab5b56d70b8aaa5590f71c")) /\
    hash_at Demo.twice Demo.creds (py "1AbC") 1 (py "Eggs") =
      Some (py "4cdd39b35fab5b56d70b8aaa5590f71c") /\
    m !! py "Feed" = None.
Proof.
  destruct (saved_state_entries Demo.twice Faulty.stale_state false
              (main Demo.twice Faulty.stale_state).2)
    as (c & m & Hc & Hf & _ & Hkeep & Hdrop).
  - vm_compute. reflexivity.
  - assert (Hc' : run_credentials Demo.twice = Some Demo.creds) by (vm_compute; reflexivity).
    assert (c = Demo.creds) as -> by congruence.
    destruct (Hkeep (py "Eggs") 1%nat) as (h & Hm & Hh).
    + discriminate.
    + vm_compute. reflexivity.
    + intros j Hj. destruct j as [|[|j]]; [lia|lia|]. vm_compute. discriminate.
    + assert (Hh' : hash_at Demo.twice Demo.creds (py "1AbC") 1 (py "Eggs") =
                    Some (py "4cdd39b35fab5b56d70b8aaa5590f71c"))
        by (vm_compute; reflexivity).
      change (env_spreadsheet_id Demo.twice) with (py "1AbC") in Hh.
      change (1 + retrievals Faulty.stale_state)%nat with 1%nat in Hh.
      assert (h = py "4cdd39b35fab5b56d70b8aaa5590f71c") as -> by congruence.
      exists m. split; [exact Hf|]. split; [exact Hm|]. split; [exact Hh'|].
      apply Hdrop; [discriminate|].
      vm_compute. intros H. apply list_elem_of_In in H. simpl in H.
      destruct H as [H|[H|[]]]; discriminate H.
Defined.
